(** * ECS150FS: a shallow embedding of [libuthread/fs.c]

    The file-system layer keeps its whole state in four globals
    ([mySuperblock], [myRootDir], [myFAT], [fd_table]) and talks to a block
    device.  The embedding threads these through a state monad whose
    computations may also be undefined (an access outside an array, a
    dereference of a pointer that is not live, a second [free]).  Every
    function below follows the C text statement by statement. *)

From stdpp Require Import base list numbers strings.
From Stdlib Require Import ZArith Ascii Lia.

Local Open Scope Z_scope.

(** ** Constants of the missing headers *)

(** Modelled from the spec: [BLOCK_SIZE] comes from [disk.h], which is not
    part of the sources; the spec gives its usual value, 4096 bytes. *)
Definition BLOCK_SIZE : Z := 4096.

(** Modelled from the spec: [FS_FILENAME_LEN] comes from [fs.h]; a name
    field is 16 bytes, terminator included. *)
Definition FS_FILENAME_LEN : Z := 16.

(** Modelled from the spec: [FS_FILE_MAX_COUNT] comes from [fs.h]; the root
    directory has exactly 128 entries. *)
Definition FS_FILE_MAX_COUNT : Z := 128.

(** Modelled from the spec: [FS_OPEN_MAX_COUNT] comes from [fs.h]; the
    descriptor table has 32 slots. *)
Definition FS_OPEN_MAX_COUNT : Z := 32.

(** The end-of-chain mark of the FAT, as a 16-bit unsigned word. *)
Definition FAT_EOC : Z := 0xFFFF.

(** ** Outcomes and machine integers *)

(** A C computation either yields a value or has no defined behaviour. *)
Inductive outcome (A : Type) : Type :=
| Ok (a : A)
| Undefined.
Arguments Ok {A} a.
Arguments Undefined {A}.

Definition obind {A B} (o : outcome A) (k : A -> outcome B) : outcome B :=
  match o with
  | Ok a => k a
  | Undefined => Undefined
  end.

(** Conversion of an [int] to [size_t] (LP64: 64 bits, wrap-around). *)
Definition to_size_t (z : Z) : Z := z mod 2 ^ 64.

(** Conversion to [int16_t]: the low 16 bits, read as a signed number. *)
Definition to_int16 (z : Z) : Z := (z + 2 ^ 15) mod 2 ^ 16 - 2 ^ 15.

(** The 16-bit word an [int16_t] is stored as. *)
Definition to_uint16 (z : Z) : Z := z mod 2 ^ 16.

(** Arithmetic on [uint8_t] wraps modulo 256. *)
Definition to_uint8 (z : Z) : Z := z mod 2 ^ 8.

(** ** Arrays *)

(** [a[i]] read: outside the array the behaviour is undefined. *)
Definition index {A} (l : list A) (i : Z) : outcome A :=
  if i <? 0 then Undefined
  else match l !! Z.to_nat i with
       | Some x => Ok x
       | None => Undefined
       end.

(** [a[i] = x]: outside the array the behaviour is undefined. *)
Definition store {A} (l : list A) (i : Z) (x : A) : outcome (list A) :=
  if (0 <=? i) && (i <? Z.of_nat (length l))
  then Ok (<[Z.to_nat i := x]> l)
  else Undefined.

(** ** C strings in byte buffers *)

Definition NUL : ascii := Ascii.zero.

Definition char_code (c : ascii) : Z := Z.of_N (N_of_ascii c).

(** The bytes of a string up to, and without, its first NUL. *)
Fixpoint until_nul (s : list ascii) : list ascii :=
  match s with
  | [] => []
  | c :: s' => if Ascii.eqb c NUL then [] else c :: until_nul s'
  end.

(** The characters of a name a caller passes: a C string ends at its first
    NUL. *)
Definition name_chars (s : string) : list ascii :=
  until_nul (String.list_ascii_of_string s).

(** The memory a [const char *] argument points to: the characters of the
    name followed by the terminator. *)
Definition c_str (s : string) : list ascii :=
  name_chars s ++ [NUL].

(** [strlen]: reading past the end of the buffer is undefined. *)
Fixpoint strlen (buf : list ascii) : outcome Z :=
  match buf with
  | [] => Undefined
  | c :: buf' =>
      if Ascii.eqb c NUL then Ok 0
      else obind (strlen buf') (fun n => Ok (n + 1))
  end.

(** [strcmp]: compares byte by byte up to the first difference or the
    common terminator; running off either buffer is undefined. *)
Fixpoint strcmp (a b : list ascii) : outcome Z :=
  match a, b with
  | x :: a', y :: b' =>
      if Ascii.eqb x y
      then if Ascii.eqb x NUL then Ok 0 else strcmp a' b'
      else Ok (char_code x - char_code y)
  | _, _ => Undefined
  end.

(** [strcpy dst src]: copies the source up to and including its terminator
    over the start of [dst]; a destination that is too short is overrun. *)
Definition strcpy (dst src : list ascii) : outcome (list ascii) :=
  obind (strlen src) (fun n =>
    if n + 1 <=? Z.of_nat (length dst)
    then Ok (take (Z.to_nat (n + 1)) src ++ drop (Z.to_nat (n + 1)) dst)
    else Undefined).

(** ** Data model *)

Record superblock_t : Type := mk_superblock {
  signature : list ascii;
  numBlocks : Z;
  rootDirInd : Z;
  dataInd : Z;
  numDataBlocks : Z;
  numFAT : Z;
  sb_unused : list ascii
}.

Record rootdirectory_t : Type := mk_rootdir {
  filename : list ascii;
  fileSize : Z;
  dataBlockInd : Z;
  num_fd_pointers : Z;
  unused : list ascii
}.

Record file_descriptor_t : Type := mk_fd {
  is_used : bool;
  file_index : Z;
  offset : Z;
  file_name : list ascii;
  dir_ptr : option Z
}.

(** A pointer returned by [malloc]: null, live with its contents, or
    dangling after [free] (the globals are never reset to [NULL]). *)
Inductive ptr (A : Type) : Type :=
| Null
| Live (a : A)
| Dangling.
Arguments Null {A}.
Arguments Live {A} a.
Arguments Dangling {A}.

Definition block : Type := list ascii.

(** The globals of [fs.c] together with the block device ([None]: no disk
    is open). *)
Record fs_state : Type := mk_state {
  mySuperblock : ptr superblock_t;
  myRootDir : ptr (list rootdirectory_t);
  myFAT : ptr (list Z);
  fd_table : list file_descriptor_t;
  disk : option (list block)
}.

Definition set_filename (v : list ascii) (e : rootdirectory_t) :=
  mk_rootdir v (fileSize e) (dataBlockInd e) (num_fd_pointers e) (unused e).
Definition set_fileSize (v : Z) (e : rootdirectory_t) :=
  mk_rootdir (filename e) v (dataBlockInd e) (num_fd_pointers e) (unused e).
Definition set_dataBlockInd (v : Z) (e : rootdirectory_t) :=
  mk_rootdir (filename e) (fileSize e) v (num_fd_pointers e) (unused e).
Definition set_num_fd_pointers (v : Z) (e : rootdirectory_t) :=
  mk_rootdir (filename e) (fileSize e) (dataBlockInd e) v (unused e).

Definition set_is_used (v : bool) (d : file_descriptor_t) :=
  mk_fd v (file_index d) (offset d) (file_name d) (dir_ptr d).
Definition set_file_index (v : Z) (d : file_descriptor_t) :=
  mk_fd (is_used d) v (offset d) (file_name d) (dir_ptr d).
Definition set_offset (v : Z) (d : file_descriptor_t) :=
  mk_fd (is_used d) (file_index d) v (file_name d) (dir_ptr d).
Definition set_file_name (v : list ascii) (d : file_descriptor_t) :=
  mk_fd (is_used d) (file_index d) (offset d) v (dir_ptr d).

Definition with_superblock (p : ptr superblock_t) (st : fs_state) :=
  mk_state p (myRootDir st) (myFAT st) (fd_table st) (disk st).
Definition with_rootdir (p : ptr (list rootdirectory_t)) (st : fs_state) :=
  mk_state (mySuperblock st) p (myFAT st) (fd_table st) (disk st).
Definition with_fat (p : ptr (list Z)) (st : fs_state) :=
  mk_state (mySuperblock st) (myRootDir st) p (fd_table st) (disk st).
Definition with_fd_table (t : list file_descriptor_t) (st : fs_state) :=
  mk_state (mySuperblock st) (myRootDir st) (myFAT st) t (disk st).
Definition with_disk (d : option (list block)) (st : fs_state) :=
  mk_state (mySuperblock st) (myRootDir st) (myFAT st) (fd_table st) d.

(** ** The monad of file-system calls *)

Definition M (A : Type) : Type := fs_state -> outcome (A * fs_state).

Definition ret {A} (a : A) : M A := fun st => Ok (a, st).

Definition bind {A B} (m : M A) (k : A -> M B) : M B :=
  fun st =>
    match m st with
    | Ok (a, st') => k a st'
    | Undefined => Undefined
    end.

Definition lift {A} (o : outcome A) : M A :=
  fun st =>
    match o with
    | Ok a => Ok (a, st)
    | Undefined => Undefined
    end.

Notation "'do' x <- m ; k" := (bind m (fun x => k))
  (at level 10, x name, m at level 100, k at level 200).
Notation "'do' ' p <- m ; k" := (bind m (fun x => match x with p => k end))
  (at level 10, p pattern, m at level 100, k at level 200).
Notation "'run' m ; k" := (bind m (fun _ => k))
  (at level 10, m at level 100, k at level 200).

(** [*p] for a heap pointer: only a live pointer may be dereferenced. *)
Definition deref {A} (p : ptr A) : outcome A :=
  match p with
  | Live a => Ok a
  | _ => Undefined
  end.

(** [free(p)]: nothing happens on [NULL]; a live block is released; freeing
    a block a second time is undefined. *)
Definition free {A} (p : ptr A) : outcome (ptr A) :=
  match p with
  | Null => Ok Null
  | Live _ => Ok Dangling
  | Dangling => Undefined
  end.

(** [fd_table[i]], read and written. *)
Definition get_fd (i : Z) : M file_descriptor_t :=
  fun st => lift (index (fd_table st) i) st.

Definition put_fd (i : Z) (d : file_descriptor_t) : M unit :=
  fun st =>
    match store (fd_table st) i d with
    | Ok t => Ok (tt, with_fd_table t st)
    | Undefined => Undefined
    end.

(** [myRootDir[i]], read and written. *)
Definition get_dir (i : Z) : M rootdirectory_t :=
  fun st => lift (obind (deref (myRootDir st)) (fun rd => index rd i)) st.

Definition put_dir (i : Z) (e : rootdirectory_t) : M unit :=
  fun st =>
    match obind (deref (myRootDir st)) (fun rd => store rd i e) with
    | Ok rd' => Ok (tt, with_rootdir (Live rd') st)
    | Undefined => Undefined
    end.

(** [myFAT[i].words]. *)
Definition get_fat (i : Z) : M Z :=
  fun st => lift (obind (deref (myFAT st)) (fun fat => index fat i)) st.

(** [*mySuperblock]. *)
Definition get_superblock : M superblock_t :=
  fun st => lift (deref (mySuperblock st)) st.

(** ** The block device *)

(** Modelled from the spec: [block_read] of [disk.c], which is not part of
    the sources.  It transfers exactly one block into the buffer, or fails
    with -1 and transfers nothing when no disk is open or the block number
    is out of range.  A buffer shorter than a block is overrun. *)
Definition block_read (blk : Z) (buf : list ascii) : M (Z * list ascii) :=
  fun st =>
    match disk st with
    | None => Ok ((-1, buf), st)
    | Some blocks =>
        if (0 <=? blk) && (blk <? Z.of_nat (length blocks))
        then match blocks !! Z.to_nat blk with
             | Some b =>
                 if BLOCK_SIZE <=? Z.of_nat (length buf)
                 then Ok ((0, take (Z.to_nat BLOCK_SIZE) b
                               ++ drop (Z.to_nat BLOCK_SIZE) buf), st)
                 else Undefined
             | None => Undefined
             end
        else Ok ((-1, buf), st)
    end.

(** Modelled from the spec: [block_write] of [disk.c]; one whole block is
    written, or the call fails with -1 and the disk is unchanged. *)
Definition block_write (blk : Z) (buf : list ascii) : M Z :=
  fun st =>
    match disk st with
    | None => Ok (-1, st)
    | Some blocks =>
        if (0 <=? blk) && (blk <? Z.of_nat (length blocks))
        then if BLOCK_SIZE <=? Z.of_nat (length buf)
             then Ok (0, with_disk
                           (Some (<[Z.to_nat blk := take (Z.to_nat BLOCK_SIZE) buf]> blocks))
                           st)
             else Undefined
        else Ok (-1, st)
    end.

(** Modelled from the spec: [block_disk_close] of [disk.c]; fails with -1
    when no disk is open. *)
Definition block_disk_close : M Z :=
  fun st =>
    match disk st with
    | None => Ok (-1, st)
    | Some _ => Ok (0, with_disk None st)
    end.

(** ** Private helpers of [fs.c] *)

Definition modify_fd (i : Z) (f : file_descriptor_t -> file_descriptor_t) : M unit :=
  do d <- get_fd i;
  put_fd i (f d).

Definition modify_dir (i : Z) (f : rootdirectory_t -> rootdirectory_t) : M unit :=
  do e <- get_dir i;
  put_dir i (f e).

(** [strcpy(myRootDir[i].filename, src)]. *)
Definition strcpy_dir_filename (i : Z) (src : list ascii) : M unit :=
  do e <- get_dir i;
  do name <- lift (strcpy (filename e) src);
  put_dir i (set_filename name e).

(** [strcpy(fd_table[i].file_name, src)]. *)
Definition strcpy_fd_file_name (i : Z) (src : list ascii) : M unit :=
  do d <- get_fd i;
  do name <- lift (strcpy (file_name d) src);
  put_fd i (set_file_name name d).

(** The second operand of the test in [locate_file] compares the address of
    the [filename] array with [0x00]; the address of a member is never
    null. *)
Definition filename_address_nonnull : bool := true.

(** The loop of [locate_file]: [n] iterations are left, starting at [i]. *)
Fixpoint locate_file_loop (file_name : list ascii) (n : nat) (i : Z) : M Z :=
  match n with
  | O => ret (-1)
  | S n' =>
      do e <- get_dir i;
      do c <- lift (strcmp (filename e) file_name);
      if (c =? 0) && filename_address_nonnull
      then ret i
      else locate_file_loop file_name n' (i + 1)
  end.

Definition locate_file (file_name : list ascii) : M Z :=
  locate_file_loop file_name (Z.to_nat FS_FILE_MAX_COUNT) 0.

Fixpoint locate_avail_fd_loop (n : nat) (i : Z) : M Z :=
  match n with
  | O => ret (-1)
  | S n' =>
      do d <- get_fd i;
      if Bool.eqb (is_used d) false
      then ret i
      else locate_avail_fd_loop n' (i + 1)
  end.

Definition locate_avail_fd : M Z :=
  locate_avail_fd_loop (Z.to_nat FS_OPEN_MAX_COUNT) 0.

(** The inner loop of [error_check]: counts the positions [j < size] where
    the entry's name and the candidate agree. *)
Fixpoint error_check_inner (n : nat) (j : Z) (dname fname : list ascii)
    (same_char : Z) : outcome Z :=
  match n with
  | O => Ok same_char
  | S n' =>
      obind (index dname j) (fun x =>
      obind (index fname j) (fun y =>
        error_check_inner n' (j + 1) dname fname
          (if Ascii.eqb x y then same_char + 1 else same_char)))
  end.

Fixpoint error_check_outer (n : nat) (i size : Z) (fname : list ascii)
    (same_char files_in_rootdir : Z) : M (Z * Z) :=
  match n with
  | O => ret (same_char, files_in_rootdir)
  | S n' =>
      do e <- get_dir i;
      do same_char' <- lift (error_check_inner (Z.to_nat size) 0 (filename e) fname same_char);
      do c <- lift (index (filename e) 0);
      error_check_outer n' (i + 1) size fname same_char'
        (if negb (Ascii.eqb c NUL) then files_in_rootdir + 1 else files_in_rootdir)
  end.

Definition error_check (fname : list ascii) : M Z :=
  do size <- lift (strlen fname);
  if size >? FS_FILENAME_LEN then ret (-1)
  else
    do '(same_char, files_in_rootdir) <-
      error_check_outer (Z.to_nat FS_FILE_MAX_COUNT) 0 size fname 0 0;
    if same_char =? size then ret (-1)
    else if files_in_rootdir =? FS_FILE_MAX_COUNT then ret (-1)
    else ret 0.

(** ** The API *)

(** The loop of [fs_create]: the first entry whose name starts with NUL
    receives the file. *)
Fixpoint fs_create_loop (fname : list ascii) (n : nat) (i : Z) : M Z :=
  match n with
  | O => ret (-1)
  | S n' =>
      do e <- get_dir i;
      do c <- lift (index (filename e) 0);
      if Ascii.eqb c NUL then
        do w <- get_fat 0;
        run modify_dir i (set_dataBlockInd (to_int16 w));
        run strcpy_dir_filename i fname;
        run modify_dir i (set_fileSize 0);
        run modify_dir i (set_dataBlockInd (-1));
        run modify_dir i (set_num_fd_pointers 0);
        ret 0
      else fs_create_loop fname n' (i + 1)
  end.

(** [fs_create]: the value of [error_check] is dropped by the caller. *)
Definition fs_create (name : string) : M Z :=
  run error_check (c_str name);
  fs_create_loop (c_str name) (Z.to_nat FS_FILE_MAX_COUNT) 0.

(** The loop of [fs_delete]: no successor is computed, so every iteration
    clears the same byte of the scratch buffers. *)
Fixpoint fs_delete_loop (n : nat) (frst_dta_blk_i : Z) (buf1 buf2 : list ascii)
    : outcome (list ascii * list ascii) :=
  match n with
  | O => Ok (buf1, buf2)
  | S n' =>
      obind
        (if frst_dta_blk_i <? BLOCK_SIZE
         then obind (store buf1 frst_dta_blk_i NUL) (fun b => Ok (b, buf2))
         else obind (store buf2 (frst_dta_blk_i - BLOCK_SIZE) NUL) (fun b => Ok (buf1, b)))
        (fun bufs => fs_delete_loop n' frst_dta_blk_i (fst bufs) (snd bufs))
  end.

(** [fs_delete].  The source lacks the closing brace of this function; its
    body is taken to end at its [return 0].  The two scratch buffers are
    read from and written back to the first two data blocks; the FAT is
    not consulted. *)
Definition fs_delete (name : string) : M Z :=
  do file_index <- locate_file (c_str name);
  if file_index =? -1 then ret (-1)
  else
    do the_dir <- get_dir file_index;
    if num_fd_pointers the_dir >? 0 then ret (-1)
    else
      let frst_dta_blk_i := dataBlockInd the_dir in
      let num_blocks := Z.quot (fileSize the_dir) BLOCK_SIZE in
      let buf1 := replicate (Z.to_nat BLOCK_SIZE) NUL in
      let buf2 := replicate (Z.to_nat BLOCK_SIZE) NUL in
      do sb <- get_superblock;
      do r1 <- block_read (to_size_t (dataInd sb)) buf1;
      do r2 <- block_read (to_size_t (dataInd sb + 1)) buf2;
      do bufs <- lift (fs_delete_loop (Z.to_nat num_blocks) frst_dta_blk_i (snd r1) (snd r2));
      run modify_dir file_index (set_dataBlockInd (-1));
      run block_write (to_size_t (dataInd sb)) (fst bufs);
      run block_write (to_size_t (dataInd sb + 1)) (snd bufs);
      run strcpy_dir_filename file_index [NUL; NUL];
      run modify_dir file_index (set_fileSize 0);
      run modify_dir file_index (set_num_fd_pointers 0);
      ret 0.

Definition fs_open (name : string) : M Z :=
  do file_index <- locate_file (c_str name);
  if file_index =? -1 then ret (-1)
  else
    do fd <- locate_avail_fd;
    if fd =? -1 then ret (-1)
    else
      run modify_fd file_index (set_is_used true);
      run modify_fd file_index (set_file_index file_index);
      run modify_fd file_index (set_offset 0);
      run strcpy_fd_file_name file_index (c_str name);
      run modify_dir file_index
            (fun e => set_num_fd_pointers (to_uint8 (num_fd_pointers e + 1)) e);
      ret fd.

(** The guard shared by [fs_close] and [fs_stat]; [||] does not read the
    table once the range test has failed. *)
Definition invalid_fd (fd : Z) : M bool :=
  if (fd >=? FS_OPEN_MAX_COUNT) || (fd <? 0) then ret true
  else
    do d <- get_fd fd;
    ret (Bool.eqb (is_used d) false).

Definition fs_close (fd : Z) : M Z :=
  do bad <- invalid_fd fd;
  if bad then ret (-1)
  else
    do fd_obj <- get_fd fd;
    do file_index <- locate_file (file_name fd_obj);
    if file_index =? -1 then ret (-1)
    else
      run modify_dir file_index
            (fun e => set_num_fd_pointers (to_uint8 (num_fd_pointers e - 1)) e);
      run modify_fd fd (set_is_used false);
      ret 0.

Definition fs_stat (fd : Z) : M Z :=
  do bad <- invalid_fd fd;
  if bad then ret (-1)
  else
    do fd_obj <- get_fd fd;
    do file_index <- locate_file (file_name fd_obj);
    if file_index =? -1 then ret (-1)
    else
      do e <- get_dir file_index;
      ret (fileSize e).

(** [fs_lseek]: [offset] is a [size_t]; the [int32_t] size is converted to
    [size_t] for the comparison. *)
Definition fs_lseek (fd : Z) (offset : Z) : M Z :=
  do fd_obj <- get_fd fd;
  do file_index <- locate_file (file_name fd_obj);
  if file_index =? -1 then ret (-1)
  else
    do file_size <- fs_stat fd;
    if (offset <? 0) || (offset >? to_size_t file_size) then ret (-1)
    else
      do d <- get_fd fd;
      if Bool.eqb (is_used d) false then ret (-1)
      else
        run modify_fd fd (set_offset offset);
        ret 0.

Definition fs_write (fd : Z) (buf : list ascii) (count : Z) : M Z :=
  ret 0.

(** The [while] loop of [fs_read], which only counts whole blocks; [None]
    when the fuel does not cover the iterations. *)
Fixpoint fs_read_skip (fuel : nat) (cur_offset num_blocks : Z) : option (Z * Z) :=
  if cur_offset >=? BLOCK_SIZE
  then match fuel with
       | O => None
       | S fuel' => fs_read_skip fuel' (cur_offset - BLOCK_SIZE) (num_blocks + 1)
       end
  else Some (num_blocks, cur_offset).

(** [fs_read] returns its result together with the caller's buffer. *)
Definition fs_read (fd : Z) (buf : list ascii) (count : Z) : M (Z * list ascii) :=
  do d <- get_fd fd;
  if Bool.eqb (is_used d) false || (count <=? 0) then ret (-1, buf)
  else
    let cur_offset := offset d in
    do file_index <- locate_file (file_name d);
    do the_dir <- get_dir file_index;
    let frst_dta_blk_i := dataBlockInd the_dir in
    match fs_read_skip (Z.to_nat (cur_offset / BLOCK_SIZE)) cur_offset 0 with
    | None => lift Undefined
    | Some _ =>
        do r <- block_read (to_size_t frst_dta_blk_i) buf;
        ret (0, snd r)
    end.

(** The loop of [fs_umount] that resets the descriptors. *)
Fixpoint fs_umount_reset (n : nat) (i : Z) : M unit :=
  match n with
  | O => ret tt
  | S n' =>
      run modify_fd i (set_offset 0);
      run modify_fd i (set_is_used false);
      run modify_fd i (set_file_index (-1));
      run strcpy_fd_file_name i [NUL];
      fs_umount_reset n' (i + 1)
  end.

Definition free_superblock : M unit :=
  fun st =>
    match free (mySuperblock st) with
    | Ok p => Ok (tt, with_superblock p st)
    | Undefined => Undefined
    end.

Definition free_rootdir : M unit :=
  fun st =>
    match free (myRootDir st) with
    | Ok p => Ok (tt, with_rootdir p st)
    | Undefined => Undefined
    end.

Definition free_fat : M unit :=
  fun st =>
    match free (myFAT st) with
    | Ok p => Ok (tt, with_fat p st)
    | Undefined => Undefined
    end.

Definition is_null {A} (p : ptr A) : bool :=
  match p with
  | Null => true
  | _ => false
  end.

(** [fs_umount].  [signature] and [filename] are the first members of their
    structures, so [free(mySuperblock->signature)] and
    [free(myRootDir->filename)] pass the address of the allocation itself,
    which the next statement frees again. *)
Definition fs_umount : M Z :=
  fun st =>
    if is_null (mySuperblock st) then ret (-1) st
    else
      (run free_superblock;
       run free_superblock;
       run free_rootdir;
       run free_rootdir;
       run free_fat;
       run fs_umount_reset (Z.to_nat FS_OPEN_MAX_COUNT) 0;
       run block_disk_close;
       ret 0) st.

(** ** Concrete states used by the examples *)

(** A name laid out in a 16-byte field, zero-filled. *)
Definition name_field (s : string) : list ascii :=
  take 16 (c_str s ++ replicate 16 NUL).

Definition empty_entry : rootdirectory_t :=
  mk_rootdir (replicate 16 NUL) 0 0 0 (replicate 9 NUL).

Definition file_entry (s : string) (size first_block opens : Z) : rootdirectory_t :=
  mk_rootdir (name_field s) size first_block opens (replicate 9 NUL).

Definition free_fd : file_descriptor_t :=
  mk_fd false 0 0 (replicate 16 NUL) None.

Definition open_fd (s : string) (root_index cursor : Z) : file_descriptor_t :=
  mk_fd true root_index cursor (name_field s) None.

Definition zero_block : block := replicate (Z.to_nat BLOCK_SIZE) NUL.

(** A block that starts with the given bytes and is zero after them. *)
Definition block_of (bytes : list ascii) : block :=
  take (Z.to_nat BLOCK_SIZE) (bytes ++ zero_block).

(** A disk of seven blocks with four data blocks: superblock, one FAT
    block, the root directory at block 2 and data from block 3. *)
Definition sb_small : superblock_t :=
  mk_superblock (String.list_ascii_of_string "ECS150FS") 7 2 3 4 1
    (replicate 4079 NUL).

Definition state_of (rd : list rootdirectory_t) (fat : list Z)
    (fds : list file_descriptor_t) (blocks : list block) : fs_state :=
  mk_state (Live sb_small) (Live rd) (Live fat) fds (Some blocks).

Definition rootdir_of (files : list rootdirectory_t) : list rootdirectory_t :=
  take 128 (files ++ replicate 128 empty_entry).

Definition fds_of (fds : list file_descriptor_t) : list file_descriptor_t :=
  take 32 (fds ++ replicate 32 free_fd).

Definition blank_disk : list block := replicate 7 zero_block.

Definition byte_FF : ascii := ascii_of_nat 255.

(** Two files without content, ["b"] in slot 0 and ["a"] in slot 1; no
    descriptor is open. *)
Definition st_two_files : fs_state :=
  state_of (rootdir_of [file_entry "b" 0 (-1) 0; file_entry "a" 0 (-1) 0])
    [65535; 0; 0; 0] (fds_of []) blank_disk.

(** The disk behind [st_hello]: the FAT block holds the words [0xFFFF],
    [0xFFFF]; data block 1 (disk block 4) holds the five bytes of the
    file. *)
Definition hello_disk : list block :=
  [zero_block; block_of [byte_FF; byte_FF; byte_FF; byte_FF]; zero_block;
   zero_block; block_of (String.list_ascii_of_string "hello"); zero_block;
   zero_block].

(** File ["x"] of five bytes in data block 1, open on descriptor 0 with the
    cursor at 0. *)
Definition st_hello : fs_state :=
  state_of (rootdir_of [file_entry "x" 5 1 1]) [65535; 65535; 0; 0]
    (fds_of [open_fd "x" 0 0]) hello_disk.

(** File ["a"] of one block, in data block 1, with no descriptor open. *)
Definition st_chain : fs_state :=
  state_of (rootdir_of [file_entry "a" 4096 1 0]) [65535; 65535; 0; 0]
    (fds_of []) blank_disk.

(** File ["a"], empty, open on descriptor 0. *)
Definition st_busy : fs_state :=
  state_of (rootdir_of [file_entry "a" 0 (-1) 1]) [65535; 0; 0; 0]
    (fds_of [open_fd "a" 0 0]) blank_disk.

(** Nothing was ever mounted: the globals still have their initial
    values. *)
Definition st_unmounted : fs_state :=
  mk_state Null Null Null (fds_of []) None.

(** ** Well-formed mounted states *)

(** A mounted state: the three heap objects are live, the tables have
    their fixed sizes, name fields are 16 bytes wide and every block of the
    disk is a whole block. *)
Record mounted (st : fs_state) (sb : superblock_t) (fat : list Z)
    (rd : list rootdirectory_t) : Prop := mk_mounted {
  mounted_sb : mySuperblock st = Live sb;
  mounted_fat : myFAT st = Live fat;
  mounted_rd : myRootDir st = Live rd;
  mounted_fat_len : (0 < length fat)%nat;
  mounted_rd_len : length rd = Z.to_nat FS_FILE_MAX_COUNT;
  mounted_names : Forall (fun e => length (filename e) = Z.to_nat FS_FILENAME_LEN) rd;
  mounted_fd_len : length (fd_table st) = Z.to_nat FS_OPEN_MAX_COUNT;
  mounted_blocks :
    forall blocks, disk st = Some blocks ->
      Forall (fun b => length b = Z.to_nat BLOCK_SIZE) blocks
}.


(** Slot [i] is the lowest slot of [rd] whose name starts with NUL. *)
Definition lowest_empty (rd : list rootdirectory_t) (i : nat) (e : rootdirectory_t) : Prop :=
  rd !! i = Some e /\
  filename e !! 0%nat = Some NUL /\
  forall j e', (j < i)%nat -> rd !! j = Some e' -> filename e' !! 0%nat <> Some NUL.


(** What [fs_delete] leaves in the slot that held [e]: an empty name (first
    byte NUL, the other bytes of the field kept), size 0, open count 0 and
    first block [FAT_EOC], the word [0xFFFF], not zero; the unused bytes are
    kept and every other slot is as in [rd]. *)
Definition slot_cleared (rd rd' : list rootdirectory_t) (i : nat)
    (e : rootdirectory_t) : Prop :=
  exists e',
    rd' !! i = Some e' /\
    filename e' !! 0%nat = Some NUL /\
    drop 1 (filename e') = drop 1 (filename e) /\
    fileSize e' = 0 /\
    num_fd_pointers e' = 0 /\
    dataBlockInd e' = -1 /\
    to_uint16 (dataBlockInd e') = FAT_EOC /\
    unused e' = unused e /\
    (forall j, j <> i -> rd' !! j = rd !! j).

(** ** Callers and states of the revised claims *)

(** A caller that opens the same name [n] times in a row and collects the
    descriptors it is given. *)
Fixpoint fs_open_times (n : nat) (name : string) : M (list Z) :=
  match n with
  | O => ret []
  | S n' =>
      do fd <- fs_open name;
      do rest <- fs_open_times n' name;
      ret (fd :: rest)
  end.



(** ** Listings *)

(** [%s]: the characters before the first NUL; running off the array is
    undefined. *)
Fixpoint read_c_string (buf : list ascii) : outcome (list ascii) :=
  match buf with
  | [] => Undefined
  | c :: buf' =>
      if Ascii.eqb c NUL then Ok []
      else obind (read_c_string buf') (fun s => Ok (c :: s))
  end.

(** The numbers [fs_info] prints after its heading, in the order of its
    lines; the ratio [fat_free_ratio] has [data_blk_count] as its second
    number. *)
Record fs_info_t : Type := mk_info {
  total_blk_count : Z;
  fat_blk_count : Z;
  rdir_blk : Z;
  data_blk : Z;
  data_blk_count : Z;
  fat_free : Z;
  rdir_free : Z
}.

(** The size of the FAT in blocks as [fs_info] (and [fs_mount]) compute it:
    a truncating division, with 0 replaced by 1. *)
Definition FAT_blocks_of (sb : superblock_t) : Z :=
  let FAT_blocks := Z.quot (numDataBlocks sb * 2) BLOCK_SIZE in
  if FAT_blocks =? 0 then 1 else FAT_blocks.

(** The counting loop of [fs_info]. *)
Fixpoint fs_info_loop (n : nat) (i count : Z) : M Z :=
  match n with
  | O => ret count
  | S n' =>
      do e <- get_dir i;
      do c <- lift (index (filename e) 0);
      fs_info_loop n' (i + 1) (if Ascii.eqb c NUL then count + 1 else count)
  end.

(** [fs_info] returns 0; what it writes to the standard output is returned
    beside it. *)
Definition fs_info : M (Z * fs_info_t) :=
  do sb <- get_superblock;
  let FAT_blocks := FAT_blocks_of sb in
  do count <- fs_info_loop 128 0 0;
  ret (0, mk_info (numBlocks sb) FAT_blocks (FAT_blocks + 1) (FAT_blocks + 2)
            (numDataBlocks sb) (numDataBlocks sb - FAT_blocks) count).

(** One line of [fs_ls]: name, size, first data block. *)
Definition ls_line : Type := (list ascii * Z * Z)%type.

(** The loop of [fs_ls]; the lines come out in slot order. *)
Fixpoint fs_ls_loop (n : nat) (i : Z) : M (list ls_line) :=
  match n with
  | O => ret []
  | S n' =>
      do e <- get_dir i;
      do c <- lift (index (filename e) 0);
      if negb (Ascii.eqb c NUL) then
        do s <- lift (read_c_string (filename e));
        do rest <- fs_ls_loop n' (i + 1);
        ret ((s, fileSize e, dataBlockInd e) :: rest)
      else fs_ls_loop n' (i + 1)
  end.

(** [fs_ls] returns 0; the lines it prints after its heading are returned
    beside it. *)
Definition fs_ls : M (Z * list ls_line) :=
  do lines <- fs_ls_loop (Z.to_nat FS_FILE_MAX_COUNT) 0;
  ret (0, lines).

(** ** Vocabulary of the further properties *)

(** Slot [j] of the root directory compares equal to [name] under
    [strcmp]. *)
Definition name_matches (st : fs_state) (j : Z) (name : list ascii) : Prop :=
  exists e, get_dir j st = Ok (e, st) /\ strcmp (filename e) name = Ok 0.

(** Slot [j] can be compared with [name] and differs from it. *)
Definition name_differs (st : fs_state) (j : Z) (name : list ascii) : Prop :=
  exists e c, get_dir j st = Ok (e, st) /\ strcmp (filename e) name = Ok c /\ c <> 0.

(** The first byte of the entry's name field is not NUL. *)
Definition is_file (e : rootdirectory_t) : bool :=
  match filename e with
  | c :: _ => negb (Ascii.eqb c NUL)
  | [] => false
  end.


(** A name field that holds a terminated string. *)
Definition terminated (buf : list ascii) : Prop := NUL ∈ buf.

(** The line [fs_ls] prints for an entry. *)
Definition ls_line_of (e : rootdirectory_t) : ls_line :=
  (until_nul (filename e), fileSize e, dataBlockInd e).

(** ** Further concrete states *)

(** File ["a"] open on all 32 descriptors. *)
Definition st_all_open : fs_state :=
  state_of (rootdir_of [file_entry "a" 0 (-1) 32]) [65535; 0; 0; 0]
    (replicate 32 (open_fd "a" 0 0)) blank_disk.

(** Thirty-two files named ["f"] in slots 0 to 31 and file ["z"] in slot
    32; no descriptor is open. *)
Definition st_far : fs_state :=
  state_of
    (rootdir_of (replicate 32 (file_entry "f" 0 (-1) 0) ++ [file_entry "z" 0 (-1) 0]))
    [65535; 0; 0; 0] (fds_of []) blank_disk.

(** A directory without a free slot. *)
Definition st_full : fs_state :=
  state_of (replicate 128 (file_entry "f" 0 (-1) 0)) [65535; 0; 0; 0]
    (fds_of []) blank_disk.

(** A file system of 3000 data blocks laid out as the format asks: two FAT
    blocks, the root directory at block 3, data from block 4, 3004 blocks
    in all; no file, no descriptor open. *)
Definition st_3000 : fs_state :=
  mk_state
    (Live (mk_superblock (String.list_ascii_of_string "ECS150FS") 3004 3 4 3000 2
             (replicate 4079 NUL)))
    (Live (rootdir_of []))
    (Live (65535 :: replicate 2999 0))
    (fds_of [])
    (Some (replicate 3004 zero_block)).

(** ** Reasoning about the monad *)

Lemma bind_Ok {A B} (m : M A) (k : A -> M B) st a st' :
  m st = Ok (a, st') -> bind m k st = k a st'.
Proof. intros H. unfold bind. now rewrite H. Qed.

Lemma bind_Undefined {A B} (m : M A) (k : A -> M B) st :
  m st = Undefined -> bind m k st = Undefined.
Proof. intros H. unfold bind. now rewrite H. Qed.

Lemma bind_inv {A B} (m : M A) (k : A -> M B) st b st2 :
  bind m k st = Ok (b, st2) ->
  exists a st1, m st = Ok (a, st1) /\ k a st1 = Ok (b, st2).
Proof.
  unfold bind. destruct (m st) as [[a st1]|]; [|discriminate].
  intros H. now exists a, st1.
Qed.

Lemma index_Ok {A} (l : list A) (i : Z) (x : A) :
  0 <= i -> l !! Z.to_nat i = Some x -> index l i = Ok x.
Proof.
  intros Hi Hx. unfold index.
  destruct (Z.ltb_spec i 0); [lia|]. now rewrite Hx.
Qed.

Lemma index_inv {A} (l : list A) (i : Z) (x : A) :
  index l i = Ok x -> 0 <= i /\ l !! Z.to_nat i = Some x.
Proof.
  unfold index. destruct (Z.ltb_spec i 0); [discriminate|].
  destruct (l !! Z.to_nat i) eqn:E; [|discriminate].
  intros [= ->]. split; [lia|reflexivity].
Qed.

Lemma index_out_of_range {A} (l : list A) (i : Z) :
  i < 0 \/ Z.of_nat (length l) <= i -> index l i = Undefined.
Proof.
  intros H. unfold index. destruct (Z.ltb_spec i 0); [reflexivity|].
  rewrite lookup_ge_None_2; [reflexivity|lia].
Qed.

Lemma store_Ok {A} (l : list A) (i : Z) (x y : A) :
  0 <= i -> l !! Z.to_nat i = Some y ->
  store l i x = Ok (<[Z.to_nat i := x]> l).
Proof.
  intros Hi Hy. unfold store.
  apply lookup_lt_Some in Hy.
  destruct (Z.leb_spec 0 i); [|lia].
  destruct (Z.ltb_spec i (Z.of_nat (length l))); [reflexivity|lia].
Qed.

Lemma get_fd_Ok st i d :
  0 <= i -> fd_table st !! Z.to_nat i = Some d -> get_fd i st = Ok (d, st).
Proof. intros Hi Hd. unfold get_fd, lift. now rewrite (index_Ok _ _ _ Hi Hd). Qed.

Lemma get_fd_inv st i d st' :
  get_fd i st = Ok (d, st') ->
  st' = st /\ 0 <= i /\ fd_table st !! Z.to_nat i = Some d.
Proof.
  unfold get_fd, lift. destruct (index (fd_table st) i) eqn:E; [|discriminate].
  intros [= -> ->]. apply index_inv in E. tauto.
Qed.

Lemma get_fd_out_of_range st i :
  i < 0 \/ Z.of_nat (length (fd_table st)) <= i -> get_fd i st = Undefined.
Proof. intros H. unfold get_fd, lift. now rewrite index_out_of_range. Qed.

Lemma get_dir_Ok st rd i e :
  myRootDir st = Live rd -> 0 <= i -> rd !! Z.to_nat i = Some e ->
  get_dir i st = Ok (e, st).
Proof.
  intros Hrd Hi He. unfold get_dir, lift. rewrite Hrd. simpl.
  now rewrite (index_Ok _ _ _ Hi He).
Qed.

Lemma get_dir_inv st i e st' :
  get_dir i st = Ok (e, st') ->
  st' = st /\ 0 <= i /\ exists rd, myRootDir st = Live rd /\ rd !! Z.to_nat i = Some e.
Proof.
  unfold get_dir, lift. destruct (myRootDir st) as [|rd|]; simpl; try discriminate.
  destruct (index rd i) eqn:E; [|discriminate].
  intros [= -> ->]. apply index_inv in E. destruct E. eauto.
Qed.

Lemma modify_fd_Ok st i d f :
  0 <= i -> fd_table st !! Z.to_nat i = Some d ->
  modify_fd i f st = Ok (tt, with_fd_table (<[Z.to_nat i := f d]> (fd_table st)) st).
Proof.
  intros Hi Hd. unfold modify_fd.
  rewrite (bind_Ok _ _ _ _ _ (get_fd_Ok _ _ _ Hi Hd)).
  unfold put_fd. now rewrite (store_Ok _ _ _ _ Hi Hd).
Qed.

Lemma modify_dir_Ok st rd i e f :
  myRootDir st = Live rd -> 0 <= i -> rd !! Z.to_nat i = Some e ->
  modify_dir i f st = Ok (tt, with_rootdir (Live (<[Z.to_nat i := f e]> rd)) st).
Proof.
  intros Hrd Hi He. unfold modify_dir.
  rewrite (bind_Ok _ _ _ _ _ (get_dir_Ok _ _ _ _ Hrd Hi He)).
  unfold put_dir. rewrite Hrd. simpl. now rewrite (store_Ok _ _ _ _ Hi He).
Qed.

(** [locate_file] only reads: it hands the state back, and an index it
    returns lies among the slots it scanned. *)
Lemma locate_file_loop_inv name n : forall i st r st',
  locate_file_loop name n i st = Ok (r, st') ->
  st' = st /\ (r = -1 \/ i <= r < i + Z.of_nat n).
Proof.
  induction n as [|n IH]; intros i st r st' H; simpl in H.
  - injection H as <- <-. split; [reflexivity|now left].
  - apply bind_inv in H as (e & st1 & He & H).
    apply get_dir_inv in He as (-> & _ & _).
    apply bind_inv in H as (c & st2 & Hc & H).
    unfold lift in Hc. destruct (strcmp (filename e) name); [|discriminate].
    injection Hc as <- <-.
    destruct ((a =? 0) && filename_address_nonnull).
    + injection H as <- <-. split; [reflexivity|right; lia].
    + apply IH in H as (-> & Hr). split; [reflexivity|].
      destruct Hr; [now left|right; lia].
Qed.

Lemma locate_file_inv name st r st' :
  locate_file name st = Ok (r, st') ->
  st' = st /\ (r = -1 \/ 0 <= r < FS_FILE_MAX_COUNT).
Proof.
  intros H. apply locate_file_loop_inv in H as (-> & Hr).
  split; [reflexivity|]. destruct Hr as [Hr|Hr]; [now left|right].
  unfold FS_FILE_MAX_COUNT in *. lia.
Qed.

(** [locate_avail_fd] skips the slots in use and answers the lowest free
    one. *)
Lemma locate_avail_fd_loop_lowest st (k : nat) (d : file_descriptor_t) :
  fd_table st !! k = Some d -> is_used d = false ->
  (forall j d', (j < k)%nat -> fd_table st !! j = Some d' -> is_used d' = true) ->
  forall n i, (i <= k < i + n)%nat ->
    locate_avail_fd_loop n (Z.of_nat i) st = Ok (Z.of_nat k, st).
Proof.
  intros Hk Hfree Hused. induction n as [|n IH]; intros i Hi; [lia|].
  cbn [locate_avail_fd_loop].
  destruct (decide (i = k)) as [->|Hne].
  - erewrite bind_Ok; [|apply get_fd_Ok; [lia|rewrite Nat2Z.id; exact Hk]].
    now rewrite Hfree.
  - destruct (lookup_lt_is_Some_2 (fd_table st) i) as [d' Hd'].
    { apply lookup_lt_Some in Hk. lia. }
    erewrite bind_Ok; [|apply get_fd_Ok; [lia|rewrite Nat2Z.id; exact Hd']].
    rewrite (Hused i d') by (lia || exact Hd'). cbn [Bool.eqb].
    replace (Z.of_nat i + 1) with (Z.of_nat (S i)) by lia.
    apply IH. lia.
Qed.

Lemma locate_avail_fd_lowest st (k : nat) (d : file_descriptor_t) :
  (k < Z.to_nat FS_OPEN_MAX_COUNT)%nat ->
  fd_table st !! k = Some d -> is_used d = false ->
  (forall j d', (j < k)%nat -> fd_table st !! j = Some d' -> is_used d' = true) ->
  locate_avail_fd st = Ok (Z.of_nat k, st).
Proof.
  intros Hlt Hk Hfree Hused. unfold locate_avail_fd.
  change 0 with (Z.of_nat 0).
  apply (locate_avail_fd_loop_lowest st k d Hk Hfree Hused). lia.
Qed.

Lemma invalid_fd_out_of_range st fd :
  fd < 0 \/ FS_OPEN_MAX_COUNT <= fd -> invalid_fd fd st = Ok (true, st).
Proof.
  intros H. unfold invalid_fd.
  destruct (Z.geb_spec fd FS_OPEN_MAX_COUNT); [reflexivity|].
  destruct (Z.ltb_spec fd 0); [reflexivity|lia].
Qed.

Lemma invalid_fd_in_range st fd d :
  0 <= fd < FS_OPEN_MAX_COUNT -> fd_table st !! Z.to_nat fd = Some d ->
  invalid_fd fd st = Ok (Bool.eqb (is_used d) false, st).
Proof.
  intros H Hd. unfold invalid_fd.
  destruct (Z.geb_spec fd FS_OPEN_MAX_COUNT); [lia|].
  destruct (Z.ltb_spec fd 0); [lia|]. simpl.
  now rewrite (bind_Ok _ _ _ _ _ (get_fd_Ok _ _ _ (proj1 H) Hd)).
Qed.


(** ** Theorems *)

(** C10. [fs_read] and [fs_lseek] read [fd_table[fd]] before any range
    test: for every [fd] outside [0, 32) the table lookup yields no slot and
    both calls are undefined, whereas [fs_close] and [fs_stat] test the
    range first and answer -1 without touching the state. *)
Theorem fd_range_is_a_precondition_of_read_and_lseek
    (st : fs_state) (fd : Z) (buf : list ascii) (count off : Z) :
  length (fd_table st) = Z.to_nat FS_OPEN_MAX_COUNT ->
  fd < 0 \/ FS_OPEN_MAX_COUNT <= fd ->
  get_fd fd st = Undefined /\
  fs_read fd buf count st = Undefined /\
  fs_lseek fd off st = Undefined /\
  fs_close fd st = Ok (-1, st) /\
  fs_stat fd st = Ok (-1, st).
Proof.
  intros Hlen Hfd.
  assert (Hget : get_fd fd st = Undefined).
  { apply get_fd_out_of_range. rewrite Hlen, Z2Nat.id; [exact Hfd|].
    unfold FS_OPEN_MAX_COUNT. lia. }
  repeat split.
  - exact Hget.
  - unfold fs_read. now apply bind_Undefined.
  - unfold fs_lseek. now apply bind_Undefined.
  - unfold fs_close.
    now rewrite (bind_Ok _ _ _ _ _ (invalid_fd_out_of_range _ _ Hfd)).
  - unfold fs_stat.
    now rewrite (bind_Ok _ _ _ _ _ (invalid_fd_out_of_range _ _ Hfd)).
Qed.

(** The guard of [fs_delete]: a file whose open count is positive is
    refused with -1 and the state is handed back as it was. *)
Lemma fs_delete_positive_count
    (st : fs_state) (name : string) (i : Z) (e : rootdirectory_t) :
  locate_file (c_str name) st = Ok (i, st) -> i <> -1 ->
  get_dir i st = Ok (e, st) ->
  0 < num_fd_pointers e ->
  fs_delete name st = Ok (-1, st).
Proof.
  intros Hloc Hi He Hopen. unfold fs_delete.
  rewrite (bind_Ok _ _ _ _ _ Hloc).
  destruct (Z.eqb_spec i (-1)) as [|_]; [contradiction|].
  rewrite (bind_Ok _ _ _ _ _ He).
  destruct (Z.gtb_spec (num_fd_pointers e) 0); [reflexivity|lia].
Qed.




(** C8, at the failing input.  From [st_two_files], 256 calls of
    [fs_open "a"] all succeed with descriptor 0, since the slot that is
    marked is slot 1; the 8-bit open count of ["a"] has then wrapped to 0
    while descriptor 1 is in use on ["a"].  [fs_delete "a"] returns 0 and
    empties the slot of the open file; the descriptor stays in use. *)
Theorem fs_delete_deletes_an_open_file :
  exists st1 st2,
    fs_open_times 256 "a" st_two_files = Ok (replicate 256 0, st1) /\
    get_fd 1 st1 = Ok (open_fd "a" 1 0, st1) /\
    get_dir 1 st1 = Ok (file_entry "a" 0 (-1) 0, st1) /\
    fs_delete "a" st1 = Ok (0, st2) /\
    get_fd 1 st2 = Ok (open_fd "a" 1 0, st2) /\
    get_dir 1 st2 =
      Ok (mk_rootdir (NUL :: drop 1 (name_field "a")) 0 (-1) 0 (replicate 9 NUL), st2).
Proof.
  eexists _, _. split; [vm_compute; reflexivity|].
  split; [vm_compute; reflexivity|].
  split; [vm_compute; reflexivity|].
  split; [vm_compute; reflexivity|].
  split; vm_compute; reflexivity.
Qed.

Lemma fd_range_witness :
  get_fd 32 st_two_files = Undefined /\
  fs_read 32 [] 1 st_two_files = Undefined /\
  fs_lseek 32 0 st_two_files = Undefined /\
  fs_close 32 st_two_files = Ok (-1, st_two_files) /\
  fs_stat 32 st_two_files = Ok (-1, st_two_files).
Proof.
  apply (fd_range_is_a_precondition_of_read_and_lseek st_two_files 32 [] 1 0).
  - vm_compute. reflexivity.
  - right. unfold FS_OPEN_MAX_COUNT. lia.
Defined.


(** *** Creating a file *)

Lemma until_nul_no_nul (s : list ascii) :
  Forall (fun c => Ascii.eqb c NUL = false) (until_nul s).
Proof.
  induction s as [|c s IH]; simpl; [constructor|].
  destruct (Ascii.eqb c NUL) eqn:E; constructor; assumption.
Qed.

Lemma strlen_terminated (l : list ascii) :
  Forall (fun c => Ascii.eqb c NUL = false) l ->
  forall rest, strlen (l ++ NUL :: rest) = Ok (Z.of_nat (length l)).
Proof.
  induction 1 as [|c l Hc _ IH]; intros rest; simpl; [reflexivity|].
  rewrite Hc, IH. simpl. f_equal. lia.
Qed.

Lemma strlen_c_str (name : string) :
  strlen (c_str name) = Ok (Z.of_nat (length (name_chars name))).
Proof. apply strlen_terminated, until_nul_no_nul. Qed.

Lemma length_c_str (name : string) :
  length (c_str name) = S (length (name_chars name)).
Proof. unfold c_str. rewrite length_app. simpl. lia. Qed.

Lemma strcpy_c_str (dst : list ascii) (name : string) :
  (length (name_chars name) < length dst)%nat ->
  strcpy dst (c_str name) = Ok (c_str name ++ drop (S (length (name_chars name))) dst).
Proof.
  intros Hlen. unfold strcpy. rewrite strlen_c_str. simpl.
  destruct (Z.leb_spec (Z.of_nat (length (name_chars name)) + 1) (Z.of_nat (length dst)));
    [|lia].
  replace (Z.to_nat (Z.of_nat (length (name_chars name)) + 1))
    with (S (length (name_chars name))) by lia.
  rewrite <- length_c_str, firstn_all. reflexivity.
Qed.

(** A field that starts with the bytes of [c_str name] compares equal to
    the name. *)
Lemma strcmp_prefix (l : list ascii) :
  Forall (fun c => Ascii.eqb c NUL = false) l ->
  forall rest1 rest2, strcmp (l ++ NUL :: rest1) (l ++ NUL :: rest2) = Ok 0.
Proof.
  induction 1 as [|c l Hc _ IH]; intros rest1 rest2; simpl; [reflexivity|].
  rewrite Ascii.eqb_refl, Hc. apply IH.
Qed.

Lemma error_check_inner_total (dname fname : list ascii) (n : nat) :
  forall j same_char,
    0 <= j ->
    j + Z.of_nat n <= Z.of_nat (length dname) ->
    j + Z.of_nat n <= Z.of_nat (length fname) ->
    exists r, error_check_inner n j dname fname same_char = Ok r.
Proof.
  induction n as [|n IH]; intros j same_char Hj Hd Hf; simpl; [eauto|].
  destruct (lookup_lt_is_Some_2 dname (Z.to_nat j)) as [x Hx]; [lia|].
  destruct (lookup_lt_is_Some_2 fname (Z.to_nat j)) as [y Hy]; [lia|].
  rewrite (index_Ok _ _ _ Hj Hx), (index_Ok _ _ _ Hj Hy). simpl.
  apply IH; lia.
Qed.

Lemma error_check_outer_total st rd (fname : list ascii) (size : Z) (n : nat) :
  myRootDir st = Live rd ->
  Forall (fun e => length (filename e) = Z.to_nat FS_FILENAME_LEN) rd ->
  0 <= size <= FS_FILENAME_LEN ->
  size <= Z.of_nat (length fname) ->
  forall i same_char files,
    0 <= i ->
    i + Z.of_nat n <= Z.of_nat (length rd) ->
    exists r, error_check_outer n i size fname same_char files st = Ok (r, st).
Proof.
  intros Hrd Hnames Hsize Hfname.
  induction n as [|n IH]; intros i same_char files Hi Hn; simpl; [unfold ret; eauto|].
  destruct (lookup_lt_is_Some_2 rd (Z.to_nat i)) as [e He]; [lia|].
  rewrite (bind_Ok _ _ _ _ _ (get_dir_Ok _ _ _ _ Hrd Hi He)).
  pose proof (proj1 (Forall_lookup _ _) Hnames _ _ He) as Hlen. simpl in Hlen.
  unfold FS_FILENAME_LEN in *.
  destruct (error_check_inner_total (filename e) fname (Z.to_nat size) 0 same_char)
    as [sc Hsc]; [lia|lia|lia|].
  rewrite Hsc. unfold lift at 1. unfold bind at 1.
  destruct (lookup_lt_is_Some_2 (filename e) 0) as [c Hc]; [lia|].
  rewrite (index_Ok (filename e) 0 c); [|lia|exact Hc].
  unfold lift at 1. unfold bind at 1.
  apply IH; lia.
Qed.

Lemma error_check_total st sb fat rd (name : string) :
  mounted st sb fat rd ->
  exists r, error_check (c_str name) st = Ok (r, st).
Proof.
  intros Hm. unfold error_check.
  rewrite strlen_c_str. unfold lift at 1. unfold bind at 1.
  set (size := Z.of_nat (length (name_chars name))).
  destruct (Z.gtb_spec size FS_FILENAME_LEN) as [Hbig|Hsmall]; [unfold ret; eauto|].
  destruct (error_check_outer_total st rd (c_str name) size
              (Z.to_nat FS_FILE_MAX_COUNT) (mounted_rd _ _ _ _ Hm)
              (mounted_names _ _ _ _ Hm)) with (i := 0) (same_char := 0) (files := 0)
    as [[same_char files] Hr].
  - subst size. lia.
  - rewrite length_c_str. subst size. lia.
  - lia.
  - rewrite (mounted_rd_len _ _ _ _ Hm). lia.
  - rewrite (bind_Ok _ _ _ _ _ Hr).
    destruct (same_char =? size); [unfold ret; eauto|].
    destruct (files =? FS_FILE_MAX_COUNT); unfold ret; eauto.
Qed.

Lemma strcpy_dir_filename_Ok st rd i e (src name' : list ascii) :
  myRootDir st = Live rd -> 0 <= i -> rd !! Z.to_nat i = Some e ->
  strcpy (filename e) src = Ok name' ->
  strcpy_dir_filename i src st =
    Ok (tt, with_rootdir (Live (<[Z.to_nat i := set_filename name' e]> rd)) st).
Proof.
  intros Hrd Hi He Hcpy. unfold strcpy_dir_filename.
  rewrite (bind_Ok _ _ _ _ _ (get_dir_Ok _ _ _ _ Hrd Hi He)).
  rewrite Hcpy. unfold lift at 1. unfold bind at 1.
  unfold put_dir. rewrite Hrd. simpl. now rewrite (store_Ok _ _ _ _ Hi He).
Qed.

Lemma fs_create_loop_here st rd fat (name : string) (n i : nat) (e : rootdirectory_t) :
  myRootDir st = Live rd -> myFAT st = Live fat -> (0 < length fat)%nat ->
  rd !! i = Some e -> filename e !! 0%nat = Some NUL ->
  (length (name_chars name) < length (filename e))%nat ->
  fs_create_loop (c_str name) (S n) (Z.of_nat i) st =
    Ok (0, with_rootdir
             (Live (<[i := mk_rootdir
                             (c_str name ++ drop (S (length (name_chars name))) (filename e))
                             0 (-1) 0 (unused e)]> rd)) st).
Proof.
  intros Hrd Hfat Hfl He Hnul Hlen.
  assert (Hi : 0 <= Z.of_nat i) by lia.
  assert (Hil : (i < length rd)%nat) by (eapply lookup_lt_Some; eauto).
  simpl. rewrite <- (Nat2Z.id i) in He.
  rewrite (bind_Ok _ _ _ _ _ (get_dir_Ok _ _ _ _ Hrd Hi He)).
  rewrite (index_Ok (filename e) 0 NUL); [|lia|exact Hnul].
  unfold lift at 1. unfold bind at 1.
  change (Ascii.eqb NUL NUL) with true. cbv iota.
  destruct (lookup_lt_is_Some_2 fat 0) as [w Hw]; [lia|].
  assert (Hgf : get_fat 0 st = Ok (w, st)).
  { unfold get_fat, lift. rewrite Hfat. simpl.
    rewrite (index_Ok fat 0 w); [reflexivity|lia|exact Hw]. }
  rewrite (bind_Ok _ _ _ _ _ Hgf).
  rewrite (bind_Ok _ _ _ _ _ (modify_dir_Ok _ _ _ _ _ Hrd Hi He)).
  rewrite Nat2Z.id.
  set (st1 := with_rootdir _ st).
  erewrite (bind_Ok (strcpy_dir_filename (Z.of_nat i) _) _ st1);
    [|eapply strcpy_dir_filename_Ok;
      [reflexivity|lia|rewrite Nat2Z.id; apply list_lookup_insert_eq, Hil
      |apply (strcpy_c_str _ _ Hlen)]].
  rewrite Nat2Z.id, list_insert_insert_eq.
  set (st2 := with_rootdir _ st1).
  erewrite (bind_Ok (modify_dir (Z.of_nat i) _) _ st2);
    [|eapply modify_dir_Ok; [reflexivity|lia|rewrite Nat2Z.id; apply list_lookup_insert_eq, Hil]].
  rewrite Nat2Z.id, list_insert_insert_eq.
  set (st3 := with_rootdir _ st2).
  erewrite (bind_Ok (modify_dir (Z.of_nat i) _) _ st3);
    [|eapply modify_dir_Ok; [reflexivity|lia|rewrite Nat2Z.id; apply list_lookup_insert_eq, Hil]].
  rewrite Nat2Z.id, list_insert_insert_eq.
  set (st4 := with_rootdir _ st3).
  erewrite (bind_Ok (modify_dir (Z.of_nat i) _) _ st4);
    [|eapply modify_dir_Ok; [reflexivity|lia|rewrite Nat2Z.id; apply list_lookup_insert_eq, Hil]].
  rewrite Nat2Z.id, list_insert_insert_eq.
  reflexivity.
Qed.

Lemma fs_create_loop_skip st rd (fname : list ascii) (i : nat) :
  myRootDir st = Live rd ->
  (i < length rd)%nat ->
  (forall j e', (j < i)%nat -> rd !! j = Some e' ->
     exists c, filename e' !! 0%nat = Some c /\ Ascii.eqb c NUL = false) ->
  forall n k, (k <= i < k + n)%nat ->
    fs_create_loop fname n (Z.of_nat k) st =
    fs_create_loop fname (n - (i - k)) (Z.of_nat i) st.
Proof.
  intros Hrd Hil Hfull. induction n as [|n IH]; intros k Hk; [lia|].
  destruct (decide (k = i)) as [->|Hne].
  - replace (S n - (i - i))%nat with (S n) by lia. reflexivity.
  - destruct (lookup_lt_is_Some_2 rd k) as [e' He']; [lia|].
    destruct (Hfull k e') as (c & Hc & Hnz); [lia|exact He'|].
    cbn [fs_create_loop].
    erewrite bind_Ok;
      [|eapply get_dir_Ok; [exact Hrd|lia|rewrite Nat2Z.id; exact He']].
    rewrite (index_Ok (filename e') 0 c); [|lia|exact Hc].
    unfold lift at 1. unfold bind at 1. rewrite Hnz.
    replace (Z.of_nat k + 1) with (Z.of_nat (S k)) by lia.
    rewrite IH by lia. f_equal. lia.
Qed.


Lemma st_two_files_mounted :
  mounted st_two_files sb_small [65535; 0; 0; 0]
    (rootdir_of [file_entry "b" 0 (-1) 0; file_entry "a" 0 (-1) 0]).
Proof.
  constructor; try reflexivity.
  - simpl. lia.
  - apply (bool_decide_unpack _). vm_compute. reflexivity.
  - intros blocks [= <-]. apply (bool_decide_unpack _). vm_compute. reflexivity.
Qed.


(** *** Deleting a file *)

Lemma block_read_total st (blk : Z) (buf : list ascii) :
  (forall blocks, disk st = Some blocks ->
     Forall (fun b => length b = Z.to_nat BLOCK_SIZE) blocks) ->
  length buf = Z.to_nat BLOCK_SIZE ->
  exists r buf',
    block_read blk buf st = Ok ((r, buf'), st) /\ length buf' = Z.to_nat BLOCK_SIZE.
Proof.
  intros Hwf Hbuf. unfold block_read.
  destruct (disk st) as [blocks|] eqn:Hdisk; [|eauto].
  destruct ((0 <=? blk) && (blk <? Z.of_nat (length blocks))) eqn:Hrange; [|eauto].
  apply andb_true_iff in Hrange as [H0 H1].
  apply Z.leb_le in H0. apply Z.ltb_lt in H1.
  destruct (blocks !! Z.to_nat blk) as [b|] eqn:Hb;
    [|apply lookup_ge_None_1 in Hb; unfold block in *; lia].
  pose proof (proj1 (Forall_lookup _ _) (Hwf _ eq_refl) _ _ Hb) as Hlen.
  cbv beta in Hlen.
  destruct (Z.leb_spec BLOCK_SIZE (Z.of_nat (length buf))); [|unfold BLOCK_SIZE in *; lia].
  eexists _, _. split; [reflexivity|].
  rewrite length_app, length_take, length_drop. lia.
Qed.

Lemma block_write_total st (blk : Z) (buf : list ascii) :
  length buf = Z.to_nat BLOCK_SIZE ->
  exists r dk, block_write blk buf st = Ok (r, with_disk dk st).
Proof.
  intros Hbuf. unfold block_write.
  destruct (disk st) as [blocks|] eqn:Hdisk.
  - destruct ((0 <=? blk) && (blk <? Z.of_nat (length blocks))).
    + destruct (Z.leb_spec BLOCK_SIZE (Z.of_nat (length buf)));
        [eauto|unfold BLOCK_SIZE in *; lia].
    + exists (-1), (Some blocks). unfold with_disk. rewrite <- Hdisk.
      now destruct st.
  - exists (-1), None. unfold with_disk. rewrite <- Hdisk. now destruct st.
Qed.

Lemma fs_delete_loop_total (frst : Z) (n : nat) :
  (n = 0%nat \/ 0 <= frst < 2 * BLOCK_SIZE) ->
  forall buf1 buf2,
    length buf1 = Z.to_nat BLOCK_SIZE -> length buf2 = Z.to_nat BLOCK_SIZE ->
    exists b1 b2,
      fs_delete_loop n frst buf1 buf2 = Ok (b1, b2) /\
      length b1 = Z.to_nat BLOCK_SIZE /\ length b2 = Z.to_nat BLOCK_SIZE.
Proof.
  induction n as [|n IH]; intros Hrange buf1 buf2 H1 H2; cbn [fs_delete_loop]; [eauto|].
  destruct Hrange as [|Hrange]; [discriminate|].
  destruct (Z.ltb_spec frst BLOCK_SIZE) as [Hlow|Hhigh].
  - unfold store.
    destruct (Z.leb_spec 0 frst); [|lia].
    destruct (Z.ltb_spec frst (Z.of_nat (length buf1))); [|unfold BLOCK_SIZE in *; lia].
    cbn [andb obind fst snd].
    apply IH; [now right|now rewrite length_insert|exact H2].
  - unfold store.
    destruct (Z.leb_spec 0 (frst - BLOCK_SIZE)); [|lia].
    destruct (Z.ltb_spec (frst - BLOCK_SIZE) (Z.of_nat (length buf2)));
      [|unfold BLOCK_SIZE in *; lia].
    cbn [andb obind fst snd].
    apply IH; [now right|exact H1|now rewrite length_insert].
Qed.

Lemma strcpy_empty (dst : list ascii) (rest : list ascii) :
  (0 < length dst)%nat ->
  strcpy dst (NUL :: rest) = Ok (NUL :: drop 1 dst).
Proof.
  intros Hlen. unfold strcpy. cbn [strlen]. change (Ascii.eqb NUL NUL) with true.
  cbn [obind]. destruct (Z.leb_spec (0 + 1) (Z.of_nat (length dst))); [|lia].
  reflexivity.
Qed.

(** C3, as amended.  For an existing file with no open descriptor, whose
    first-block index the scratch loop can use (the size is below one block,
    or the index lies in [0, 2 * BLOCK_SIZE)), [fs_delete] returns 0 and the
    slot is empty afterwards: first name byte NUL, size 0, open count 0 and
    first block [FAT_EOC] (the word [0xFFFF], not zero); the rest of the
    name field, the unused bytes and the other slots keep their contents. *)
Theorem fs_delete_clears_the_slot
    (st : fs_state) (sb : superblock_t) (fat : list Z)
    (rd : list rootdirectory_t) (name : string) (i : Z) (e : rootdirectory_t) :
  mounted st sb fat rd ->
  locate_file (c_str name) st = Ok (i, st) -> i <> -1 ->
  rd !! Z.to_nat i = Some e ->
  num_fd_pointers e = 0 ->
  fileSize e < BLOCK_SIZE \/ 0 <= dataBlockInd e < 2 * BLOCK_SIZE ->
  exists st' rd',
    fs_delete name st = Ok (0, st') /\
    myRootDir st' = Live rd' /\
    slot_cleared rd rd' (Z.to_nat i) e.
Proof.
  intros Hm Hloc Hi He Hopen Hrange.
  pose proof (mounted_rd _ _ _ _ Hm) as Hrd.
  pose proof (mounted_sb _ _ _ _ Hm) as Hsb.
  pose proof (mounted_blocks _ _ _ _ Hm) as Hblocks.
  pose proof (locate_file_inv _ _ _ _ Hloc) as (_ & [Hneg|Hi0]); [contradiction|].
  assert (Hil : (Z.to_nat i < length rd)%nat) by (eapply lookup_lt_Some; eauto).
  pose proof (proj1 (Forall_lookup _ _) (mounted_names _ _ _ _ Hm) _ _ He) as Hname.
  cbv beta in Hname. unfold FS_FILENAME_LEN in Hname.
  assert (Hzero : length (replicate (Z.to_nat BLOCK_SIZE) NUL) = Z.to_nat BLOCK_SIZE)
    by apply length_replicate.
  destruct (block_read_total st (to_size_t (dataInd sb)) _ Hblocks Hzero)
    as (r1 & b1 & Hr1 & Hb1).
  destruct (block_read_total st (to_size_t (dataInd sb + 1)) _ Hblocks Hzero)
    as (r2 & b2 & Hr2 & Hb2).
  destruct (fs_delete_loop_total (dataBlockInd e)
              (Z.to_nat (Z.quot (fileSize e) BLOCK_SIZE))) with (buf1 := b1) (buf2 := b2)
    as (c1 & c2 & Hloop & Hc1 & Hc2); [|exact Hb1|exact Hb2|].
  { destruct Hrange as [Hsmall|Hin]; [left|now right].
    destruct (Z.le_gt_cases 0 (fileSize e)).
    - rewrite Z.quot_small; [reflexivity|lia].
    - assert (Z.quot (fileSize e) BLOCK_SIZE <= 0); [|lia].
      apply Z.quot_le_upper_bound; unfold BLOCK_SIZE; lia. }
  set (rd1 := <[Z.to_nat i := set_dataBlockInd (-1) e]> rd).
  set (st1 := with_rootdir (Live rd1) st).
  destruct (block_write_total st1 (to_size_t (dataInd sb)) c1 Hc1) as (w1 & dk1 & Hw1).
  destruct (block_write_total (with_disk dk1 st1) (to_size_t (dataInd sb + 1)) c2 Hc2)
    as (w2 & dk2 & Hw2).
  set (st3 := with_disk dk2 (with_disk dk1 st1)) in Hw2.
  assert (Hlook1 : rd1 !! Z.to_nat i = Some (set_dataBlockInd (-1) e))
    by apply list_lookup_insert_eq, Hil.
  assert (Hil1 : (Z.to_nat i < length rd1)%nat) by (unfold rd1; now rewrite length_insert).
  eexists _, _. split.
  { unfold fs_delete. rewrite (bind_Ok _ _ _ _ _ Hloc).
    destruct (Z.eqb_spec i (-1)) as [|_]; [contradiction|].
    rewrite (bind_Ok _ _ _ _ _ (get_dir_Ok _ _ _ _ Hrd (proj1 Hi0) He)).
    rewrite Hopen. change (0 >? 0) with false. cbv iota zeta.
    assert (Hgs : get_superblock st = Ok (sb, st))
      by (unfold get_superblock, lift; now rewrite Hsb).
    rewrite (bind_Ok _ _ _ _ _ Hgs), (bind_Ok _ _ _ _ _ Hr1), (bind_Ok _ _ _ _ _ Hr2).
    cbn [fst snd]. rewrite Hloop. unfold lift at 1. unfold bind at 1.
    rewrite (bind_Ok _ _ _ _ _ (modify_dir_Ok _ _ _ _ _ Hrd (proj1 Hi0) He)).
    cbn [fst snd]. fold rd1. fold st1.
    rewrite (bind_Ok _ _ _ _ _ Hw1), (bind_Ok _ _ _ _ _ Hw2).
    erewrite (bind_Ok (strcpy_dir_filename i _) _ st3);
      [|eapply strcpy_dir_filename_Ok;
        [reflexivity|lia|exact Hlook1|apply strcpy_empty; cbn [filename set_dataBlockInd]; lia]].
    erewrite bind_Ok;
      [|eapply modify_dir_Ok; [reflexivity|lia|apply list_lookup_insert_eq, Hil1]].
    erewrite bind_Ok;
      [|eapply modify_dir_Ok;
        [reflexivity|lia|apply list_lookup_insert_eq; now rewrite length_insert]].
    reflexivity. }
  split; [reflexivity|].
  rewrite !list_insert_insert_eq. unfold rd1. rewrite list_insert_insert_eq.
  eexists. split; [apply list_lookup_insert_eq, Hil|].
  cbn. repeat split.
  intros j Hj. apply list_lookup_insert_ne. congruence.
Qed.

Lemma st_chain_mounted :
  mounted st_chain sb_small [65535; 65535; 0; 0]
    (rootdir_of [file_entry "a" 4096 1 0]).
Proof.
  constructor; try reflexivity.
  - simpl. lia.
  - apply (bool_decide_unpack _). vm_compute. reflexivity.
  - intros blocks [= <-]. apply (bool_decide_unpack _). vm_compute. reflexivity.
Qed.

Lemma fs_delete_clears_the_slot_witness :
  exists st' rd',
    fs_delete "a" st_chain = Ok (0, st') /\
    myRootDir st' = Live rd' /\
    slot_cleared (rootdir_of [file_entry "a" 4096 1 0]) rd' 0
      (file_entry "a" 4096 1 0).
Proof.
  apply (fs_delete_clears_the_slot st_chain sb_small [65535; 65535; 0; 0]
           (rootdir_of [file_entry "a" 4096 1 0]) "a" 0 (file_entry "a" 4096 1 0)).
  - exact st_chain_mounted.
  - vm_compute. reflexivity.
  - lia.
  - reflexivity.
  - reflexivity.
  - right. vm_compute. intuition discriminate.
Defined.

(** C3, counterexample.  File ["a"] of [st_chain] occupies data block 1, the
    head and only block of its chain, and nobody has it open.  [fs_delete]
    returns 0, yet FAT entry 1 is still [0xFFFF] instead of 0, and the
    slot's first-block field is -1 instead of 0. *)
Lemma fs_delete_leaves_the_chain_allocated :
  exists st' e',
    get_dir 0 st_chain = Ok (file_entry "a" 4096 1 0, st_chain) /\
    fs_delete "a" st_chain = Ok (0, st') /\
    get_fat 1 st' = Ok (65535, st') /\
    get_dir 0 st' = Ok (e', st') /\
    dataBlockInd e' = -1 /\
    ~ (get_fat 1 st' = Ok (0, st') /\ dataBlockInd e' = 0).
Proof.
  eexists _, _. split; [vm_compute; reflexivity|].
  split; [vm_compute; reflexivity|].
  split; [vm_compute; reflexivity|].
  split; [vm_compute; reflexivity|].
  split; [reflexivity|].
  intros [_ H]. vm_compute in H. discriminate.
Qed.

(** *** Unmounting *)

(** C4, as amended.  [fs_umount] fails with -1 exactly when no superblock
    was ever allocated, and then the state is intact.  It never looks at the
    descriptor table: with a file system mounted it goes on to release the
    mount whether or not descriptors are in use, so it cannot answer -1
    there. *)
Theorem fs_umount_fails_iff_never_mounted (st st' : fs_state) :
  fs_umount st = Ok (-1, st') <-> mySuperblock st = Null /\ st' = st.
Proof.
  unfold fs_umount. split.
  - destruct (mySuperblock st) as [|sb|] eqn:Hsb; cbn [is_null].
    + intros [= <-]. now split.
    + intros H. exfalso.
      apply bind_inv in H as ([] & st1 & H1 & H).
      apply bind_inv in H as ([] & st2 & H2 & _).
      unfold free_superblock in H1. rewrite Hsb in H1. cbn in H1.
      injection H1 as <-.
      unfold free_superblock in H2. cbn in H2. discriminate.
    + intros H. exfalso.
      apply bind_inv in H as ([] & st1 & H1 & _).
      unfold free_superblock in H1. rewrite Hsb in H1. discriminate.
  - intros [Hsb ->]. now rewrite Hsb.
Qed.

Lemma fs_umount_unmounted_witness :
  fs_umount st_unmounted = Ok (-1, st_unmounted).
Proof.
  apply (proj2 (fs_umount_fails_iff_never_mounted st_unmounted st_unmounted)).
  split; reflexivity.
Defined.

(** C4, counterexample.  In [st_busy] descriptor 0 is in use, and
    [fs_umount] does not fail with -1 leaving the mount intact: it passes
    its only guard and frees the superblock twice. *)
Lemma fs_umount_does_not_refuse_open_descriptors :
  get_fd 0 st_busy = Ok (open_fd "a" 0 0, st_busy) /\
  is_used (open_fd "a" 0 0) = true /\
  fs_umount st_busy <> Ok (-1, st_busy).
Proof.
  split; [vm_compute; reflexivity|]. split; [reflexivity|].
  assert (H : fs_umount st_busy = Undefined) by (vm_compute; reflexivity).
  rewrite H. discriminate.
Qed.

(** *** The defects, evaluated *)

(** The [while] loop of [fs_read] terminates within the fuel [fs_read]
    gives it: it counts the whole blocks below the cursor. *)
Lemma fs_read_skip_terminates (fuel : nat) :
  forall cur_offset num_blocks,
    0 <= cur_offset ->
    cur_offset / BLOCK_SIZE <= Z.of_nat fuel ->
    fs_read_skip fuel cur_offset num_blocks =
      Some (num_blocks + cur_offset / BLOCK_SIZE, cur_offset mod BLOCK_SIZE).
Proof.
  induction fuel as [|fuel IH]; intros cur nb Hcur Hfuel; cbn [fs_read_skip];
    destruct (Z.geb_spec cur BLOCK_SIZE) as [Hge|Hlt].
  - assert (1 <= cur / BLOCK_SIZE); [|lia].
    apply Z.div_le_lower_bound; unfold BLOCK_SIZE in *; lia.
  - rewrite Z.div_small, Z.mod_small by lia. f_equal. f_equal. lia.
  - assert (Hdiv : (cur - BLOCK_SIZE) / BLOCK_SIZE = cur / BLOCK_SIZE - 1).
    { replace (cur - BLOCK_SIZE) with (cur + (-1) * BLOCK_SIZE) by lia.
      rewrite Z.div_add; [lia|unfold BLOCK_SIZE; lia]. }
    assert (Hmod : (cur - BLOCK_SIZE) mod BLOCK_SIZE = cur mod BLOCK_SIZE).
    { replace (cur - BLOCK_SIZE) with (cur + (-1) * BLOCK_SIZE) by lia.
      apply Z.mod_add. unfold BLOCK_SIZE. lia. }
    rewrite IH by lia. rewrite Hdiv, Hmod. f_equal. f_equal. lia.
  - rewrite Z.div_small, Z.mod_small by lia. f_equal. f_equal. lia.
Qed.

(** [fs_read] never moves a cursor and never reports a byte count. *)
Lemma fs_read_result st fd buf count r buf' st' :
  fs_read fd buf count st = Ok ((r, buf'), st') ->
  st' = st /\ (r = 0 \/ r = -1).
Proof.
  unfold fs_read. intros H.
  apply bind_inv in H as (d & st1 & Hd & H).
  apply get_fd_inv in Hd as (-> & _ & _).
  destruct (Bool.eqb (is_used d) false || (count <=? 0)).
  - injection H as <- <- <-. split; [reflexivity|now right].
  - apply bind_inv in H as (i & st1 & Hi & H).
    apply locate_file_inv in Hi as (-> & _).
    apply bind_inv in H as (e & st1 & He & H).
    apply get_dir_inv in He as (-> & _ & _).
    destruct (fs_read_skip _ _ _); [|discriminate].
    apply bind_inv in H as ([r1 b1] & st1 & Hr & H).
    injection H as <- <- <-.
    split; [|now left].
    unfold block_read in Hr.
    destruct (disk st); [|now injection Hr].
    destruct (_ && _); [|now injection Hr].
    destruct (_ !! _); [|discriminate].
    destruct (_ <=? _); [now injection Hr|discriminate].
Qed.

(** C1, at the failing input.  File ["x"] holds the five bytes "hello" and
    is open on descriptor 0 at cursor 0.  Reading 5 bytes returns 0, leaves
    the state (cursor included) as it was, and fills a block-sized buffer
    with disk block 1, the FAT block, rather than with the file's bytes; a
    buffer of just the 5 bytes asked for is overrun by the whole block. *)
Theorem fs_read_reports_zero_bytes :
  fs_read 0 zero_block 5 st_hello =
    Ok ((0, block_of [byte_FF; byte_FF; byte_FF; byte_FF]), st_hello) /\
  fs_read 0 (replicate 5 NUL) 5 st_hello = Undefined.
Proof. split; vm_compute; reflexivity. Qed.

(** C2, at the failing input.  With ["a"] in root slot 1 and every
    descriptor free, [fs_open] returns descriptor 0 but marks slot 1 of the
    descriptor table: slot 0, the one returned, is still free. *)
Theorem fs_open_marks_the_root_index_slot :
  exists st',
    fs_open "a" st_two_files = Ok (0, st') /\
    get_fd 0 st' = Ok (free_fd, st') /\
    get_fd 1 st' = Ok (open_fd "a" 1 0, st') /\
    get_dir 1 st' = Ok (file_entry "a" 0 (-1) 1, st').
Proof.
  eexists. split; [vm_compute; reflexivity|].
  repeat split; vm_compute; reflexivity.
Qed.

(** C5, at the failing input.  ["a"] already exists in slot 1;
    [error_check] answers -1, and [fs_create] still returns 0 and writes a
    second ["a"] into slot 2.  An empty name is accepted likewise and
    changes slot 2; a name of 16 characters is copied past the end of the
    name field. *)
Theorem fs_create_inserts_a_duplicate :
  exists st' st'',
    fs_create "0123456789abcdef" st_two_files = Undefined /\
    error_check (c_str "a") st_two_files = Ok (-1, st_two_files) /\
    fs_create "a" st_two_files = Ok (0, st') /\
    get_dir 1 st' = Ok (file_entry "a" 0 (-1) 0, st') /\
    get_dir 2 st' = Ok (file_entry "a" 0 (-1) 0, st') /\
    fs_create "" st_two_files = Ok (0, st'') /\
    get_dir 2 st_two_files = Ok (empty_entry, st_two_files) /\
    get_dir 2 st'' = Ok (set_dataBlockInd (-1) empty_entry, st'').
Proof.
  eexists _, _. split; [vm_compute; reflexivity|].
  split; [vm_compute; reflexivity|].
  split; [vm_compute; reflexivity|].
  split; [vm_compute; reflexivity|].
  split; [vm_compute; reflexivity|].
  split; [vm_compute; reflexivity|].
  split; vm_compute; reflexivity.
Qed.

(** C6, at the failing input.  Opening ["a"] returns descriptor 0 while
    slot 1 was marked; closing descriptor 0 then fails with -1, slot 1 stays
    in use and the open count of ["a"] stays at 1. *)
Theorem fs_open_then_close_does_not_restore :
  exists st',
    (do fd <- fs_open "a"; fs_close fd) st_two_files = Ok (-1, st') /\
    get_fd 1 st_two_files = Ok (free_fd, st_two_files) /\
    get_fd 1 st' = Ok (open_fd "a" 1 0, st') /\
    get_dir 1 st_two_files = Ok (file_entry "a" 0 (-1) 0, st_two_files) /\
    get_dir 1 st' = Ok (file_entry "a" 0 (-1) 1, st').
Proof.
  eexists. split; [vm_compute; reflexivity|].
  repeat split; vm_compute; reflexivity.
Qed.

(** ** Further properties of the code *)

(** *** Inversion of the primitive steps *)

Lemma lift_inv {A} (o : outcome A) st a st' :
  lift o st = Ok (a, st') -> o = Ok a /\ st' = st.
Proof. unfold lift. destruct o; [|discriminate]. intros [= -> ->]. now split. Qed.

Lemma ret_inv {A} (a b : A) st st' :
  ret a st = Ok (b, st') -> b = a /\ st' = st.
Proof. unfold ret. intros [= -> ->]. now split. Qed.

Lemma store_inv {A} (l l' : list A) (i : Z) (x : A) :
  store l i x = Ok l' ->
  0 <= i /\ (Z.to_nat i < length l)%nat /\ l' = <[Z.to_nat i := x]> l.
Proof.
  unfold store. destruct (Z.leb_spec 0 i); [|discriminate].
  destruct (Z.ltb_spec i (Z.of_nat (length l))); [|discriminate].
  intros [= <-]. repeat split; lia.
Qed.

Lemma modify_fd_inv st i f u st' :
  modify_fd i f st = Ok (u, st') ->
  exists d, 0 <= i /\ fd_table st !! Z.to_nat i = Some d /\
    st' = with_fd_table (<[Z.to_nat i := f d]> (fd_table st)) st.
Proof.
  unfold modify_fd. intros H.
  apply bind_inv in H as (d & st1 & Hd & H).
  apply get_fd_inv in Hd as (-> & Hi & Hd).
  unfold put_fd in H. destruct (store (fd_table st) i (f d)) as [t|] eqn:Hs; [|discriminate].
  injection H as _ <-. apply store_inv in Hs as (_ & _ & ->). eauto.
Qed.

Lemma modify_dir_inv st i f u st' :
  modify_dir i f st = Ok (u, st') ->
  exists rd e, 0 <= i /\ myRootDir st = Live rd /\ rd !! Z.to_nat i = Some e /\
    st' = with_rootdir (Live (<[Z.to_nat i := f e]> rd)) st.
Proof.
  unfold modify_dir. intros H.
  apply bind_inv in H as (e & st1 & He & H).
  apply get_dir_inv in He as (-> & Hi & rd & Hrd & He).
  unfold put_dir in H. rewrite Hrd in H. cbn [deref obind] in H.
  destruct (store rd i (f e)) as [rd'|] eqn:Hs; [|discriminate].
  injection H as _ <-. apply store_inv in Hs as (_ & _ & ->). eauto 10.
Qed.

Lemma strcpy_dir_filename_inv st i src u st' :
  strcpy_dir_filename i src st = Ok (u, st') ->
  exists rd e name', 0 <= i /\ myRootDir st = Live rd /\ rd !! Z.to_nat i = Some e /\
    strcpy (filename e) src = Ok name' /\
    st' = with_rootdir (Live (<[Z.to_nat i := set_filename name' e]> rd)) st.
Proof.
  unfold strcpy_dir_filename. intros H.
  apply bind_inv in H as (e & st1 & He & H).
  apply get_dir_inv in He as (-> & Hi & rd & Hrd & He).
  apply bind_inv in H as (name' & st1 & Hn & H).
  apply lift_inv in Hn as (Hn & ->).
  unfold put_dir in H. rewrite Hrd in H. cbn [deref obind] in H.
  destruct (store rd i _) as [rd'|] eqn:Hs; [|discriminate].
  injection H as _ <-. apply store_inv in Hs as (_ & _ & ->). eauto 10.
Qed.

Lemma strcpy_fd_file_name_Ok st i d (src name' : list ascii) :
  0 <= i -> fd_table st !! Z.to_nat i = Some d ->
  strcpy (file_name d) src = Ok name' ->
  strcpy_fd_file_name i src st =
    Ok (tt, with_fd_table (<[Z.to_nat i := set_file_name name' d]> (fd_table st)) st).
Proof.
  intros Hi Hd Hcpy. unfold strcpy_fd_file_name.
  rewrite (bind_Ok _ _ _ _ _ (get_fd_Ok _ _ _ Hi Hd)).
  rewrite Hcpy. unfold lift at 1. unfold bind at 1.
  unfold put_fd. now rewrite (store_Ok _ _ _ _ Hi Hd).
Qed.

Lemma strcpy_fd_file_name_inv st i src u st' :
  strcpy_fd_file_name i src st = Ok (u, st') ->
  exists d name', 0 <= i /\ fd_table st !! Z.to_nat i = Some d /\
    strcpy (file_name d) src = Ok name' /\
    st' = with_fd_table (<[Z.to_nat i := set_file_name name' d]> (fd_table st)) st.
Proof.
  unfold strcpy_fd_file_name. intros H.
  apply bind_inv in H as (d & st1 & Hd & H).
  apply get_fd_inv in Hd as (-> & Hi & Hd).
  apply bind_inv in H as (name' & st1 & Hn & H).
  apply lift_inv in Hn as (Hn & ->).
  unfold put_fd in H. destruct (store (fd_table st) i _) as [t|] eqn:Hs; [|discriminate].
  injection H as _ <-. apply store_inv in Hs as (_ & _ & ->). eauto 10.
Qed.

Lemma block_read_inv st blk buf r st' :
  block_read blk buf st = Ok (r, st') -> st' = st.
Proof.
  unfold block_read. destruct (disk st); [|now intros [= _ <-]].
  destruct (_ && _); [|now intros [= _ <-]].
  destruct (_ !! _); [|discriminate].
  destruct (_ <=? _); [now intros [= _ <-]|discriminate].
Qed.

Lemma block_write_inv st blk buf r st' :
  block_write blk buf st = Ok (r, st') -> exists dk, st' = with_disk dk st.
Proof.
  unfold block_write. destruct (disk st) as [blocks|] eqn:Hd.
  - destruct (_ && _).
    + destruct (_ <=? _); [|discriminate]. intros [= _ <-]. eauto.
    + intros [= _ <-]. exists (Some blocks). destruct st. cbn in *. now subst.
  - intros [= _ <-]. exists None. destruct st. cbn in *. now subst.
Qed.

(** *** [locate_file] *)

Lemma locate_file_loop_first_match st (name : list ascii) (k : Z) :
  name_matches st k name ->
  forall n i,
    0 <= i <= k -> k < i + Z.of_nat n ->
    (forall j, i <= j < k -> name_differs st j name) ->
    locate_file_loop name n i st = Ok (k, st).
Proof.
  intros (e & He & Hcmp). induction n as [|n IH]; intros i Hi Hn Hdiff; [lia|].
  cbn [locate_file_loop].
  destruct (decide (i = k)) as [->|Hne].
  - rewrite (bind_Ok _ _ _ _ _ He), Hcmp. reflexivity.
  - destruct (Hdiff i) as (e' & c & He' & Hc & Hnz); [lia|].
    rewrite (bind_Ok _ _ _ _ _ He'), Hc. unfold lift at 1. unfold bind at 1.
    destruct (Z.eqb_spec c 0); [contradiction|]. cbn [andb].
    apply IH; [lia|lia|]. intros j Hj. apply Hdiff. lia.
Qed.

Lemma locate_file_loop_sound (name : list ascii) (n : nat) :
  forall i st r st',
    locate_file_loop name n i st = Ok (r, st') ->
    (r = -1 /\ forall j, i <= j < i + Z.of_nat n -> name_differs st j name) \/
    (i <= r < i + Z.of_nat n /\ name_matches st r name /\
     forall j, i <= j < r -> name_differs st j name).
Proof.
  induction n as [|n IH]; intros i st r st' H; cbn [locate_file_loop] in H.
  - apply ret_inv in H as (-> & _). left. split; [reflexivity|]. intros j Hj. lia.
  - apply bind_inv in H as (e & st1 & He & H).
    pose proof (get_dir_inv _ _ _ _ He) as (-> & _ & _).
    apply bind_inv in H as (c & st1 & Hc & H).
    apply lift_inv in Hc as (Hc & ->).
    destruct (Z.eqb_spec c 0) as [->|Hnz]; cbn [andb filename_address_nonnull] in H.
    + apply ret_inv in H as (-> & _). right.
      split; [lia|]. split; [now exists e|]. intros j Hj. lia.
    + assert (Hi : name_differs st i name) by (now exists e, c).
      apply IH in H as [(-> & Hall)|(Hr & Hm & Hbefore)].
      * left. split; [reflexivity|]. intros j Hj.
        destruct (decide (j = i)) as [->|]; [exact Hi|apply Hall; lia].
      * right. split; [lia|]. split; [exact Hm|]. intros j Hj.
        destruct (decide (j = i)) as [->|]; [exact Hi|apply Hbefore; lia].
Qed.

(** X1. [locate_file] answers the first slot whose name field compares
    equal to the name: a match in slot [k] is found as soon as every
    earlier slot compares different. *)
Theorem locate_file_first_match (st : fs_state) (name : list ascii) (k : Z) :
  0 <= k < FS_FILE_MAX_COUNT ->
  name_matches st k name ->
  (forall j, 0 <= j < k -> name_differs st j name) ->
  locate_file name st = Ok (k, st).
Proof.
  intros Hk Hm Hdiff. unfold locate_file.
  unfold FS_FILE_MAX_COUNT in *.
  apply (locate_file_loop_first_match st name k Hm); [lia|lia|].
  intros j Hj. apply Hdiff. lia.
Qed.

(** X2. Whatever [locate_file] answers is justified by the directory: an
    index is that of a slot comparing equal to the name, with every earlier
    slot different; -1 means that all 128 slots compare different.  The
    state is handed back unchanged. *)
Theorem locate_file_sound (st : fs_state) (name : list ascii) (r : Z) (st' : fs_state) :
  locate_file name st = Ok (r, st') ->
  st' = st /\
  ((r = -1 /\ forall j, 0 <= j < FS_FILE_MAX_COUNT -> name_differs st j name) \/
   (0 <= r < FS_FILE_MAX_COUNT /\ name_matches st r name /\
    forall j, 0 <= j < r -> name_differs st j name)).
Proof.
  intros H. pose proof (locate_file_inv _ _ _ _ H) as (-> & _).
  split; [reflexivity|]. unfold locate_file in H.
  apply locate_file_loop_sound in H. unfold FS_FILE_MAX_COUNT in *.
  destruct H as [(-> & Hall)|(Hr & Hm & Hb)]; [left|right].
  - split; [reflexivity|]. intros j Hj. apply Hall. lia.
  - split; [lia|]. now split.
Qed.

Lemma locate_file_loop_none st (name : list ascii) (n : nat) :
  forall i,
    (forall j, i <= j < i + Z.of_nat n -> name_differs st j name) ->
    locate_file_loop name n i st = Ok (-1, st).
Proof.
  induction n as [|n IH]; intros i Hdiff; cbn [locate_file_loop]; [reflexivity|].
  destruct (Hdiff i) as (e & c & He & Hc & Hnz); [lia|].
  rewrite (bind_Ok _ _ _ _ _ He), Hc. unfold lift at 1. unfold bind at 1.
  destruct (Z.eqb_spec c 0); [contradiction|]. cbn [andb].
  apply IH. intros j Hj. apply Hdiff. lia.
Qed.

Lemma char_code_zero (c : ascii) : char_code c = 0 -> c = NUL.
Proof.
  unfold char_code. intros H.
  assert (HN : N_of_ascii c = 0%N) by lia.
  rewrite <- (ascii_N_embedding c), HN. reflexivity.
Qed.

(** X3. An empty slot passes for a file with the empty name: the second
    half of the test in [locate_file] is always true, so looking up [""]
    answers the lowest slot whose name starts with NUL. *)
Theorem locate_file_empty_name_finds_empty_slot
    (st : fs_state) (sb : superblock_t) (fat : list Z)
    (rd : list rootdirectory_t) (i : nat) (e : rootdirectory_t) :
  mounted st sb fat rd ->
  lowest_empty rd i e ->
  locate_file (c_str "") st = Ok (Z.of_nat i, st).
Proof.
  intros Hm (He & Hnul & Hlow).
  pose proof (mounted_rd _ _ _ _ Hm) as Hrd.
  assert (Hil : (i < length rd)%nat) by (eapply lookup_lt_Some; eauto).
  rewrite (mounted_rd_len _ _ _ _ Hm) in Hil.
  unfold locate_file. change (c_str "") with [NUL].
  apply locate_file_loop_first_match; [|lia|lia|].
  - exists e. split; [apply (get_dir_Ok _ rd); [exact Hrd|lia|now rewrite Nat2Z.id]|].
    destruct (filename e) as [|c l] eqn:Hfn; [discriminate|].
    injection Hnul as ->. reflexivity.
  - intros j Hj.
    destruct (lookup_lt_is_Some_2 rd (Z.to_nat j)) as [e' He'].
    { rewrite (mounted_rd_len _ _ _ _ Hm). lia. }
    pose proof (proj1 (Forall_lookup _ _) (mounted_names _ _ _ _ Hm) _ _ He') as Hlen.
    cbv beta in Hlen. unfold FS_FILENAME_LEN in Hlen.
    specialize (Hlow (Z.to_nat j) e' ltac:(lia) He').
    destruct (filename e') as [|c l] eqn:Hfn; [cbn in Hlen; lia|].
    exists e', (char_code c - char_code NUL).
    split; [apply (get_dir_Ok _ rd); [exact Hrd|lia|exact He']|].
    assert (Hc : c <> NUL) by (intros ->; now apply Hlow).
    split.
    + rewrite Hfn. cbn [strcmp]. destruct (Ascii.eqb_spec c NUL); [contradiction|reflexivity].
    + intros H0. apply Hc, char_code_zero. change (char_code NUL) with 0 in H0. lia.
Qed.

(** *** The descriptor table *)

Lemma locate_avail_fd_loop_full st (n : nat) :
  forall i,
    (forall j, i <= j < i + Z.of_nat n ->
       exists d, fd_table st !! Z.to_nat j = Some d /\ is_used d = true) ->
    0 <= i ->
    locate_avail_fd_loop n i st = Ok (-1, st).
Proof.
  induction n as [|n IH]; intros i Hused Hi; cbn [locate_avail_fd_loop]; [reflexivity|].
  destruct (Hused i) as (d & Hd & Hu); [lia|].
  rewrite (bind_Ok _ _ _ _ _ (get_fd_Ok _ _ _ Hi Hd)), Hu. cbn [Bool.eqb].
  apply IH; [|lia]. intros j Hj. apply Hused. lia.
Qed.

(** X5. With all 32 descriptors in use, [locate_avail_fd] answers -1. *)
Theorem locate_avail_fd_exhausted (st : fs_state) :
  length (fd_table st) = Z.to_nat FS_OPEN_MAX_COUNT ->
  Forall (fun d => is_used d = true) (fd_table st) ->
  locate_avail_fd st = Ok (-1, st).
Proof.
  intros Hlen Hall. unfold locate_avail_fd.
  apply locate_avail_fd_loop_full; [|lia].
  intros j Hj.
  destruct (lookup_lt_is_Some_2 (fd_table st) (Z.to_nat j)) as [d Hd]; [lia|].
  exists d. split; [exact Hd|].
  exact (proj1 (Forall_lookup _ _) Hall _ _ Hd).
Qed.

Lemma fs_open_run
    (st : fs_state) (rd : list rootdirectory_t) (name : string)
    (i k : nat) (e : rootdirectory_t) (d dk : file_descriptor_t) :
  myRootDir st = Live rd ->
  locate_file (c_str name) st = Ok (Z.of_nat i, st) ->
  rd !! i = Some e ->
  fd_table st !! i = Some d ->
  (length (name_chars name) < length (file_name d))%nat ->
  (k < Z.to_nat FS_OPEN_MAX_COUNT)%nat ->
  fd_table st !! k = Some dk -> is_used dk = false ->
  (forall j d', (j < k)%nat -> fd_table st !! j = Some d' -> is_used d' = true) ->
  fs_open name st =
    Ok (Z.of_nat k,
        with_rootdir
          (Live (<[i := set_num_fd_pointers (to_uint8 (num_fd_pointers e + 1)) e]> rd))
          (with_fd_table
             (<[i := mk_fd true (Z.of_nat i) 0
                       (c_str name ++ drop (S (length (name_chars name))) (file_name d))
                       (dir_ptr d)]> (fd_table st))
             st)).
Proof.
  intros Hrd Hloc He Hd Hlen Hk Hdk Hfree Hused.
  assert (Hil : (i < length (fd_table st))%nat) by (eapply lookup_lt_Some; eauto).
  unfold fs_open. rewrite (bind_Ok _ _ _ _ _ Hloc).
  destruct (Z.eqb_spec (Z.of_nat i) (-1)); [lia|].
  assert (Hfd : locate_avail_fd st = Ok (Z.of_nat k, st)).
  { unfold locate_avail_fd. change 0 with (Z.of_nat 0).
    apply (locate_avail_fd_loop_lowest st k dk Hdk Hfree Hused). lia. }
  rewrite (bind_Ok _ _ _ _ _ Hfd).
  destruct (Z.eqb_spec (Z.of_nat k) (-1)); [lia|].
  rewrite <- (Nat2Z.id i) in Hd, He.
  rewrite (bind_Ok _ _ _ _ _ (modify_fd_Ok st (Z.of_nat i) d _ (Nat2Z.is_nonneg i) Hd)).
  rewrite Nat2Z.id.
  erewrite bind_Ok;
    [|eapply modify_fd_Ok; [lia|rewrite Nat2Z.id; apply list_lookup_insert_eq, Hil]].
  rewrite Nat2Z.id. cbn [fd_table with_fd_table]. rewrite list_insert_insert_eq.
  erewrite bind_Ok;
    [|eapply modify_fd_Ok; [lia|rewrite Nat2Z.id; apply list_lookup_insert_eq, Hil]].
  rewrite Nat2Z.id. cbn [fd_table with_fd_table]. rewrite list_insert_insert_eq.
  erewrite bind_Ok;
    [|eapply strcpy_fd_file_name_Ok;
      [lia|rewrite Nat2Z.id; apply list_lookup_insert_eq, Hil
      |apply strcpy_c_str; exact Hlen]].
  rewrite Nat2Z.id. cbn [fd_table with_fd_table]. rewrite list_insert_insert_eq.
  erewrite bind_Ok; [|eapply modify_dir_Ok; [exact Hrd|lia|exact He]].
  rewrite Nat2Z.id. reflexivity.
Qed.


(** X7. A file whose root slot lies beyond the 32-slot descriptor table
    cannot be opened: [fs_open] indexes the table with the root index, so
    the access is out of bounds. *)
Theorem fs_open_root_index_beyond_table
    (st : fs_state) (name : string) (i k : Z) :
  length (fd_table st) = Z.to_nat FS_OPEN_MAX_COUNT ->
  locate_file (c_str name) st = Ok (i, st) ->
  FS_OPEN_MAX_COUNT <= i ->
  locate_avail_fd st = Ok (k, st) -> k <> -1 ->
  fs_open name st = Undefined.
Proof.
  intros Hlen Hloc Hi Hfd Hk. unfold fs_open.
  rewrite (bind_Ok _ _ _ _ _ Hloc).
  destruct (Z.eqb_spec i (-1)); [unfold FS_OPEN_MAX_COUNT in *; lia|].
  rewrite (bind_Ok _ _ _ _ _ Hfd).
  destruct (Z.eqb_spec k (-1)); [contradiction|].
  apply bind_Undefined. unfold modify_fd. apply bind_Undefined.
  apply get_fd_out_of_range. right. rewrite Hlen.
  unfold FS_OPEN_MAX_COUNT in *. lia.
Qed.

(** X8. With every descriptor in use, [fs_open] of an existing file
    returns -1 and changes nothing, the open count included. *)
Theorem fs_open_table_full (st : fs_state) (name : string) (i : Z) :
  length (fd_table st) = Z.to_nat FS_OPEN_MAX_COUNT ->
  Forall (fun d => is_used d = true) (fd_table st) ->
  locate_file (c_str name) st = Ok (i, st) ->
  fs_open name st = Ok (-1, st).
Proof.
  intros Hlen Hall Hloc. unfold fs_open. rewrite (bind_Ok _ _ _ _ _ Hloc).
  destruct (i =? -1); [reflexivity|].
  assert (Hfd : locate_avail_fd st = Ok (-1, st)).
  { unfold locate_avail_fd. apply locate_avail_fd_loop_full; [|lia].
    intros j Hj.
    destruct (lookup_lt_is_Some_2 (fd_table st) (Z.to_nat j)) as [d Hd]; [lia|].
    exists d. split; [exact Hd|]. exact (proj1 (Forall_lookup _ _) Hall _ _ Hd). }
  now rewrite (bind_Ok _ _ _ _ _ Hfd).
Qed.

(** X9. A name that no slot of the directory matches is refused by
    [fs_open] and by [fs_delete] with -1, and nothing changes. *)
Theorem missing_file_is_refused (st : fs_state) (name : string) :
  (forall j, 0 <= j < FS_FILE_MAX_COUNT -> name_differs st j (c_str name)) ->
  fs_open name st = Ok (-1, st) /\ fs_delete name st = Ok (-1, st).
Proof.
  intros Hdiff.
  assert (Hloc : locate_file (c_str name) st = Ok (-1, st)).
  { unfold locate_file. apply locate_file_loop_none. intros j Hj. apply Hdiff.
    unfold FS_FILE_MAX_COUNT in *. lia. }
  split; [unfold fs_open|unfold fs_delete]; now rewrite (bind_Ok _ _ _ _ _ Hloc).
Qed.

Lemma fs_close_run st rd fd d i e :
  0 <= fd < FS_OPEN_MAX_COUNT ->
  fd_table st !! Z.to_nat fd = Some d -> is_used d = true ->
  locate_file (file_name d) st = Ok (i, st) -> i <> -1 ->
  myRootDir st = Live rd -> rd !! Z.to_nat i = Some e ->
  fs_close fd st =
    Ok (0, with_fd_table (<[Z.to_nat fd := set_is_used false d]> (fd_table st))
             (with_rootdir
                (Live (<[Z.to_nat i :=
                          set_num_fd_pointers (to_uint8 (num_fd_pointers e - 1)) e]> rd))
                st)).
Proof.
  intros Hfd Hd Hused Hloc Hi Hrd He.
  pose proof (locate_file_inv _ _ _ _ Hloc) as (_ & [|Hi0]); [contradiction|].
  unfold fs_close.
  rewrite (bind_Ok _ _ _ _ _ (invalid_fd_in_range _ _ _ Hfd Hd)), Hused. cbn [Bool.eqb].
  rewrite (bind_Ok _ _ _ _ _ (get_fd_Ok _ _ _ (proj1 Hfd) Hd)).
  rewrite (bind_Ok _ _ _ _ _ Hloc).
  destruct (Z.eqb_spec i (-1)); [contradiction|].
  rewrite (bind_Ok _ _ _ _ _ (modify_dir_Ok _ _ _ _ _ Hrd (proj1 Hi0) He)).
  erewrite bind_Ok; [|eapply modify_fd_Ok; [lia|exact Hd]].
  reflexivity.
Qed.


(** X11. A descriptor cannot be closed twice: after a successful
    [fs_close], a second [fs_close] of the same descriptor returns -1 and
    leaves the open count where the first close put it. *)
Theorem fs_close_twice
    (st : fs_state) (rd : list rootdirectory_t) (fd : Z)
    (d : file_descriptor_t) (i : Z) (e : rootdirectory_t) :
  0 <= fd < FS_OPEN_MAX_COUNT ->
  fd_table st !! Z.to_nat fd = Some d -> is_used d = true ->
  locate_file (file_name d) st = Ok (i, st) -> i <> -1 ->
  myRootDir st = Live rd -> rd !! Z.to_nat i = Some e ->
  exists st',
    fs_close fd st = Ok (0, st') /\
    fs_close fd st' = Ok (-1, st').
Proof.
  intros Hfd Hd Hused Hloc Hi Hrd He.
  eexists. split; [apply (fs_close_run st rd fd d i e); assumption|].
  unfold fs_close.
  erewrite bind_Ok;
    [|eapply invalid_fd_in_range;
      [exact Hfd|apply list_lookup_insert_eq; eapply lookup_lt_Some; eauto]].
  reflexivity.
Qed.

Lemma invalid_fd_inv st fd b st' :
  invalid_fd fd st = Ok (b, st') ->
  st' = st /\
  (b = false ->
   0 <= fd < FS_OPEN_MAX_COUNT /\
   exists d, fd_table st !! Z.to_nat fd = Some d /\ is_used d = true).
Proof.
  unfold invalid_fd.
  destruct (Z.geb_spec fd FS_OPEN_MAX_COUNT) as [Hge|Hlt]; cbn [orb].
  { intros H. apply ret_inv in H as (-> & ->). split; [reflexivity|discriminate]. }
  destruct (Z.ltb_spec fd 0) as [Hneg|Hpos].
  { intros H. apply ret_inv in H as (-> & ->). split; [reflexivity|discriminate]. }
  intros H. apply bind_inv in H as (d & st1 & Hd & H).
  apply get_fd_inv in Hd as (-> & _ & Hd).
  apply ret_inv in H as (-> & ->). split; [reflexivity|].
  intros Hb. split; [lia|]. exists d. split; [exact Hd|].
  now destruct (is_used d).
Qed.

Lemma fs_stat_inv st fd r st' :
  fs_stat fd st = Ok (r, st') ->
  st' = st /\
  (r = -1 \/
   exists d i e,
     0 <= fd < FS_OPEN_MAX_COUNT /\
     fd_table st !! Z.to_nat fd = Some d /\ is_used d = true /\
     locate_file (file_name d) st = Ok (i, st) /\ i <> -1 /\
     get_dir i st = Ok (e, st) /\ r = fileSize e).
Proof.
  unfold fs_stat. intros H.
  apply bind_inv in H as (b & st1 & Hb & H).
  apply invalid_fd_inv in Hb as (-> & Hb).
  destruct b.
  { apply ret_inv in H as (-> & ->). split; [reflexivity|now left]. }
  destruct (Hb eq_refl) as (Hfd & d & Hd & Hused).
  apply bind_inv in H as (d' & st1 & Hd' & H).
  apply get_fd_inv in Hd' as (-> & _ & Hd').
  rewrite Hd in Hd'. injection Hd' as <-.
  apply bind_inv in H as (i & st1 & Hi & H).
  pose proof (locate_file_inv _ _ _ _ Hi) as (-> & _).
  destruct (Z.eqb_spec i (-1)).
  { apply ret_inv in H as (-> & ->). split; [reflexivity|now left]. }
  apply bind_inv in H as (e & st1 & He & H).
  pose proof (get_dir_inv _ _ _ _ He) as (-> & _).
  apply ret_inv in H as (-> & ->). split; [reflexivity|].
  right. exists d, i, e. repeat split; assumption || lia.
Qed.

(** X12. [fs_stat] only reads.  Whenever it is defined it hands the state
    back unchanged, and its answer is either -1 or the size field of the
    directory slot that [locate_file] finds for the name stored in a
    descriptor that is in range and in use. *)
Theorem fs_stat_sound (st : fs_state) (fd r : Z) (st' : fs_state) :
  fs_stat fd st = Ok (r, st') ->
  st' = st /\
  (r = -1 \/
   exists d i e,
     0 <= fd < FS_OPEN_MAX_COUNT /\
     fd_table st !! Z.to_nat fd = Some d /\ is_used d = true /\
     locate_file (file_name d) st = Ok (i, st) /\ i <> -1 /\
     get_dir i st = Ok (e, st) /\ r = fileSize e).
Proof.
  unfold fs_stat. intros H.
  apply bind_inv in H as (b & st1 & Hb & H).
  apply invalid_fd_inv in Hb as (-> & Hb).
  destruct b.
  { apply ret_inv in H as (-> & ->). split; [reflexivity|now left]. }
  destruct (Hb eq_refl) as (Hfd & d & Hd & Hused).
  apply bind_inv in H as (d' & st1 & Hd' & H).
  apply get_fd_inv in Hd' as (-> & _ & Hd').
  rewrite Hd in Hd'. injection Hd' as <-.
  apply bind_inv in H as (i & st1 & Hi & H).
  pose proof (locate_file_inv _ _ _ _ Hi) as (-> & _).
  destruct (Z.eqb_spec i (-1)).
  { apply ret_inv in H as (-> & ->). split; [reflexivity|now left]. }
  apply bind_inv in H as (e & st1 & He & H).
  pose proof (get_dir_inv _ _ _ _ He) as (-> & _).
  apply ret_inv in H as (-> & ->). split; [reflexivity|].
  right. exists d, i, e. repeat split; assumption || lia.
Qed.

(** X13. [fs_lseek] touches nothing but one cursor.  Whenever it is
    defined, either it returns -1 and the state is unchanged, or it returns
    0 and the only change is the cursor of descriptor [fd], which was in
    use: directory, FAT, disk and the other descriptors are as before. *)
Theorem fs_lseek_only_moves_the_cursor
    (st : fs_state) (fd off r : Z) (st' : fs_state) :
  fs_lseek fd off st = Ok (r, st') ->
  (r = -1 /\ st' = st) \/
  (r = 0 /\
   exists d, fd_table st !! Z.to_nat fd = Some d /\ is_used d = true /\
     st' = with_fd_table (<[Z.to_nat fd := set_offset off d]> (fd_table st)) st).
Proof.
  unfold fs_lseek. intros H.
  apply bind_inv in H as (d & st1 & Hd & H).
  apply get_fd_inv in Hd as (-> & Hfd & Hd).
  apply bind_inv in H as (i & st1 & Hi & H).
  pose proof (locate_file_inv _ _ _ _ Hi) as (-> & _).
  destruct (i =? -1).
  { apply ret_inv in H as (-> & ->). now left. }
  apply bind_inv in H as (size & st1 & Hs & H).
  apply fs_stat_inv in Hs as (-> & _).
  destruct ((off <? 0) || (off >? to_size_t size)).
  { apply ret_inv in H as (-> & ->). now left. }
  apply bind_inv in H as (d' & st1 & Hd' & H).
  apply get_fd_inv in Hd' as (-> & _ & Hd').
  rewrite Hd in Hd'. injection Hd' as <-.
  destruct (is_used d) eqn:Hused; cbn [Bool.eqb] in H.
  - apply bind_inv in H as (u & st1 & Hm & H).
    apply modify_fd_inv in Hm as (d' & _ & Hd' & ->).
    rewrite Hd in Hd'. injection Hd' as <-.
    apply ret_inv in H as (-> & ->). right. split; [reflexivity|]. eauto.
  - apply ret_inv in H as (-> & ->). now left.
Qed.

(** *** [error_check] and [fs_create] *)

(** X14. [error_check] rejects a name of more than 16 characters before it
    looks at the directory, in any state at all. *)
Theorem error_check_long_name (st : fs_state) (name : string) :
  (16 < length (name_chars name))%nat ->
  error_check (c_str name) st = Ok (-1, st).
Proof.
  intros Hlen. unfold error_check. rewrite strlen_c_str.
  unfold lift at 1. unfold bind at 1.
  destruct (Z.gtb_spec (Z.of_nat (length (name_chars name))) FS_FILENAME_LEN);
    [reflexivity|unfold FS_FILENAME_LEN in *; lia].
Qed.

Lemma error_check_outer_no_chars (fname : list ascii) (n : nat) :
  forall i files st r st',
    error_check_outer n i 0 fname 0 files st = Ok (r, st') ->
    fst r = 0.
Proof.
  induction n as [|n IH]; intros i files st r st' H; cbn [error_check_outer] in H.
  - apply ret_inv in H as (-> & _). reflexivity.
  - apply bind_inv in H as (e & st1 & _ & H).
    apply bind_inv in H as (sc & st2 & Hsc & H).
    apply lift_inv in Hsc as (Hsc & ->). cbn in Hsc. injection Hsc as <-.
    apply bind_inv in H as (c & st3 & _ & H).
    now apply IH in H.
Qed.

(** X15. [error_check] rejects the empty name in every mounted state: no
    position is compared, so the count of equal characters, 0, equals the
    length of the name. *)
Theorem error_check_empty_name
    (st : fs_state) (sb : superblock_t) (fat : list Z) (rd : list rootdirectory_t) :
  mounted st sb fat rd ->
  error_check (c_str "") st = Ok (-1, st).
Proof.
  intros Hm.
  destruct (error_check_outer_total st rd [NUL] 0 (Z.to_nat FS_FILE_MAX_COUNT)
              (mounted_rd _ _ _ _ Hm) (mounted_names _ _ _ _ Hm))
    with (i := 0) (same_char := 0) (files := 0) as [[same_char files] Hout].
  - unfold FS_FILENAME_LEN. lia.
  - cbn [length]. lia.
  - lia.
  - rewrite (mounted_rd_len _ _ _ _ Hm). lia.
  - pose proof (error_check_outer_no_chars _ _ _ _ _ _ _ Hout) as Hsame.
    cbn [fst] in Hsame. subst same_char.
    unfold error_check. change (c_str "") with [NUL].
    cbn [strlen]. change (Ascii.eqb NUL NUL) with true. cbv iota.
    unfold lift at 1. unfold bind at 1.
    change (0 >? FS_FILENAME_LEN) with false. cbv iota.
    rewrite (bind_Ok _ _ _ _ _ Hout). reflexivity.
Qed.

Lemma fs_create_loop_full st rd (fname : list ascii) (n : nat) :
  myRootDir st = Live rd ->
  forall i,
    0 <= i ->
    (forall j, i <= j < i + Z.of_nat n ->
       exists e c, rd !! Z.to_nat j = Some e /\ filename e !! 0%nat = Some c /\
                   Ascii.eqb c NUL = false) ->
    fs_create_loop fname n i st = Ok (-1, st).
Proof.
  intros Hrd. induction n as [|n IH]; intros i Hi Hfull; cbn [fs_create_loop];
    [reflexivity|].
  destruct (Hfull i) as (e & c & He & Hc & Hnz); [lia|].
  rewrite (bind_Ok _ _ _ _ _ (get_dir_Ok _ _ _ _ Hrd Hi He)).
  rewrite (index_Ok (filename e) 0 c); [|lia|exact Hc].
  unfold lift at 1. unfold bind at 1. rewrite Hnz.
  apply IH; [lia|]. intros j Hj. apply Hfull. lia.
Qed.

(** X16. With all 128 slots occupied, [fs_create] returns -1 and changes
    nothing, whatever the name. *)
Theorem fs_create_directory_full
    (st : fs_state) (sb : superblock_t) (fat : list Z)
    (rd : list rootdirectory_t) (name : string) :
  mounted st sb fat rd ->
  Forall (fun e => is_file e = true) rd ->
  fs_create name st = Ok (-1, st).
Proof.
  intros Hm Hfull.
  destruct (error_check_total st sb fat rd name Hm) as [r Hr].
  unfold fs_create. rewrite (bind_Ok _ _ _ _ _ Hr).
  apply (fs_create_loop_full st rd); [exact (mounted_rd _ _ _ _ Hm)|lia|].
  intros j Hj.
  destruct (lookup_lt_is_Some_2 rd (Z.to_nat j)) as [e He].
  { rewrite (mounted_rd_len _ _ _ _ Hm). lia. }
  pose proof (proj1 (Forall_lookup _ _) Hfull _ _ He) as Hfile.
  unfold is_file in Hfile. destruct (filename e) as [|c l] eqn:Hfn; [discriminate|].
  exists e, c. split; [exact He|]. rewrite Hfn. split; [reflexivity|].
  now apply negb_true_iff.
Qed.

Lemma fs_create_run st sb fat rd (name : string) (i : nat) (e : rootdirectory_t) :
  mounted st sb fat rd ->
  (length (name_chars name) < 16)%nat ->
  lowest_empty rd i e ->
  fs_create name st =
    Ok (0, with_rootdir
             (Live (<[i := mk_rootdir
                             (c_str name ++ drop (S (length (name_chars name))) (filename e))
                             0 (-1) 0 (unused e)]> rd)) st).
Proof.
  intros Hm Hvalid (He & Hnul & Hlow).
  pose proof (mounted_rd _ _ _ _ Hm) as Hrd.
  pose proof (mounted_names _ _ _ _ Hm) as Hnames.
  assert (Hil : (i < length rd)%nat) by (eapply lookup_lt_Some; eauto).
  assert (H128 : (i < 128)%nat).
  { rewrite (mounted_rd_len _ _ _ _ Hm) in Hil. unfold FS_FILE_MAX_COUNT in Hil. lia. }
  pose proof (proj1 (Forall_lookup _ _) Hnames _ _ He) as Hlen. cbv beta in Hlen.
  unfold FS_FILENAME_LEN in Hlen.
  destruct (error_check_total st sb fat rd name Hm) as [r Hr].
  unfold fs_create. rewrite (bind_Ok _ _ _ _ _ Hr).
  change 0 with (Z.of_nat 0) at 1.
  rewrite (fs_create_loop_skip st rd (c_str name) i Hrd Hil).
  - replace (Z.to_nat FS_FILE_MAX_COUNT - (i - 0))%nat with (S (127 - i)) by
      (unfold FS_FILE_MAX_COUNT; lia).
    apply (fs_create_loop_here st rd fat name _ i e Hrd (mounted_fat _ _ _ _ Hm)
             (mounted_fat_len _ _ _ _ Hm) He Hnul). lia.
  - intros j e' Hj He'.
    pose proof (proj1 (Forall_lookup _ _) Hnames _ _ He') as Hlen'. cbv beta in Hlen'.
    unfold FS_FILENAME_LEN in Hlen'.
    destruct (lookup_lt_is_Some_2 (filename e') 0) as [c Hc]; [lia|].
    exists c. split; [exact Hc|].
    destruct (Ascii.eqb_spec c NUL) as [->|]; [|reflexivity].
    exfalso. exact (Hlow j e' Hj He' Hc).
  - unfold FS_FILE_MAX_COUNT. lia.
Qed.

(** X17. Create, then look up.  A name of at most 15 characters that the
    directory did not contain is found by [locate_file] right after
    [fs_create], in the slot that was the lowest empty one. *)
Theorem fs_create_then_locate
    (st : fs_state) (sb : superblock_t) (fat : list Z)
    (rd : list rootdirectory_t) (name : string) (i : nat) (e : rootdirectory_t) :
  mounted st sb fat rd ->
  (length (name_chars name) < 16)%nat ->
  lowest_empty rd i e ->
  locate_file (c_str name) st = Ok (-1, st) ->
  exists st',
    fs_create name st = Ok (0, st') /\
    locate_file (c_str name) st' = Ok (Z.of_nat i, st').
Proof.
  intros Hm Hvalid Hlow Hfresh.
  pose proof (mounted_rd _ _ _ _ Hm) as Hrd.
  pose proof Hlow as (He & _ & _).
  assert (Hil : (i < length rd)%nat) by (eapply lookup_lt_Some; eauto).
  assert (H128 : (i < 128)%nat).
  { rewrite (mounted_rd_len _ _ _ _ Hm) in Hil. unfold FS_FILE_MAX_COUNT in Hil. lia. }
  eexists. split; [apply (fs_create_run st sb fat rd name i e Hm Hvalid Hlow)|].
  unfold locate_file in *.
  apply locate_file_loop_sound in Hfresh as [(_ & Hall)|(Hr & _)]; [|lia].
  apply locate_file_loop_first_match;
    [|lia|unfold FS_FILE_MAX_COUNT; lia|].
  - eexists. split.
    + eapply get_dir_Ok; [reflexivity|lia|].
      rewrite Nat2Z.id. apply list_lookup_insert_eq, Hil.
    + cbn [filename]. unfold c_str. rewrite <- app_assoc.
      apply strcmp_prefix, until_nul_no_nul.
  - intros j Hj.
    destruct (Hall j) as (e' & c & He' & Hc & Hnz); [unfold FS_FILE_MAX_COUNT; lia|].
    apply get_dir_inv in He' as (_ & _ & rd0 & Hrd0 & He').
    rewrite Hrd in Hrd0. injection Hrd0 as <-.
    exists e', c. split; [|now split].
    eapply get_dir_Ok; [reflexivity|lia|].
    rewrite list_lookup_insert_ne by lia. exact He'.
Qed.

Lemma error_check_outer_inv (fname : list ascii) (size : Z) (n : nat) :
  forall i same_char files st r st',
    error_check_outer n i size fname same_char files st = Ok (r, st') -> st' = st.
Proof.
  induction n as [|n IH]; intros i same_char files st r st' H;
    cbn [error_check_outer] in H.
  - now apply ret_inv in H as (_ & ->).
  - apply bind_inv in H as (e & st1 & He & H).
    apply get_dir_inv in He as (-> & _).
    apply bind_inv in H as (sc & st1 & Hsc & H).
    apply lift_inv in Hsc as (_ & ->).
    apply bind_inv in H as (c & st1 & Hc & H).
    apply lift_inv in Hc as (_ & ->).
    now apply IH in H.
Qed.

Lemma error_check_inv (fname : list ascii) st r st' :
  error_check fname st = Ok (r, st') -> st' = st.
Proof.
  unfold error_check. intros H.
  apply bind_inv in H as (size & st1 & Hs & H).
  apply lift_inv in Hs as (_ & ->).
  destruct (size >? FS_FILENAME_LEN); [now apply ret_inv in H as (_ & ->)|].
  apply bind_inv in H as ([sc files] & st1 & Hout & H).
  apply error_check_outer_inv in Hout as ->.
  destruct (sc =? size); [now apply ret_inv in H as (_ & ->)|].
  destruct (files =? FS_FILE_MAX_COUNT); now apply ret_inv in H as (_ & ->).
Qed.

Lemma fs_create_loop_inv (fname : list ascii) (n : nat) :
  forall i st r st',
    fs_create_loop fname n i st = Ok (r, st') ->
    (r = -1 /\ st' = st) \/
    (r = 0 /\ exists rd', st' = with_rootdir (Live rd') st).
Proof.
  induction n as [|n IH]; intros i st r st' H; cbn [fs_create_loop] in H.
  - apply ret_inv in H as (-> & ->). now left.
  - apply bind_inv in H as (e & st1 & He & H).
    apply get_dir_inv in He as (-> & _).
    apply bind_inv in H as (c & st1 & Hc & H).
    apply lift_inv in Hc as (_ & ->).
    destruct (Ascii.eqb c NUL); [|now apply IH in H].
    apply bind_inv in H as (w & st1 & Hw & H).
    unfold get_fat in Hw. apply lift_inv in Hw as (_ & ->).
    apply bind_inv in H as (u1 & st1 & H1 & H).
    apply modify_dir_inv in H1 as (rd1 & e1 & _ & _ & _ & ->).
    apply bind_inv in H as (u2 & st2 & H2 & H).
    apply strcpy_dir_filename_inv in H2 as (rd2 & e2 & n2 & _ & _ & _ & _ & ->).
    apply bind_inv in H as (u3 & st3 & H3 & H).
    apply modify_dir_inv in H3 as (rd3 & e3 & _ & _ & _ & ->).
    apply bind_inv in H as (u4 & st4 & H4 & H).
    apply modify_dir_inv in H4 as (rd4 & e4 & _ & _ & _ & ->).
    apply bind_inv in H as (u5 & st5 & H5 & H).
    apply modify_dir_inv in H5 as (rd5 & e5 & _ & _ & _ & ->).
    apply ret_inv in H as (-> & ->). right. split; [reflexivity|].
    eexists. reflexivity.
Qed.

(** X18. [fs_create] writes to the root directory only.  Whenever it is
    defined, it either returns -1 with the state unchanged or returns 0
    with a state that differs from the old one in the root directory alone:
    FAT, descriptor table, superblock and disk are the same. *)
Theorem fs_create_only_writes_the_directory
    (st : fs_state) (name : string) (r : Z) (st' : fs_state) :
  fs_create name st = Ok (r, st') ->
  (r = -1 /\ st' = st) \/
  (r = 0 /\ exists rd', st' = with_rootdir (Live rd') st).
Proof.
  unfold fs_create. intros H.
  apply bind_inv in H as (c & st1 & Hc & H).
  apply error_check_inv in Hc as ->.
  now apply fs_create_loop_inv in H.
Qed.

(** X19. [fs_delete] never frees a block in the FAT.  Whenever it is
    defined, it either returns -1 with the state unchanged, or returns 0
    with the in-memory FAT, the descriptor table and the superblock exactly
    as before: only the root directory and the disk can differ. *)
Theorem fs_delete_keeps_the_fat
    (st : fs_state) (name : string) (r : Z) (st' : fs_state) :
  fs_delete name st = Ok (r, st') ->
  (r = -1 /\ st' = st) \/
  (r = 0 /\ exists rd' dk,
     st' = mk_state (mySuperblock st) (Live rd') (myFAT st) (fd_table st) dk).
Proof.
  unfold fs_delete. intros H.
  apply bind_inv in H as (i & st1 & Hi & H).
  pose proof (locate_file_inv _ _ _ _ Hi) as (-> & _).
  destruct (i =? -1); [apply ret_inv in H as (-> & ->); now left|].
  apply bind_inv in H as (e & st1 & He & H).
  apply get_dir_inv in He as (-> & _).
  destruct (num_fd_pointers e >? 0); [apply ret_inv in H as (-> & ->); now left|].
  cbv zeta in H.
  apply bind_inv in H as (sb & st1 & Hsb & H).
  unfold get_superblock in Hsb. apply lift_inv in Hsb as (_ & ->).
  apply bind_inv in H as (r1 & st1 & Hr1 & H).
  apply block_read_inv in Hr1 as ->.
  apply bind_inv in H as (r2 & st1 & Hr2 & H).
  apply block_read_inv in Hr2 as ->.
  apply bind_inv in H as (bufs & st1 & Hb & H).
  apply lift_inv in Hb as (_ & ->).
  apply bind_inv in H as (u1 & st1 & H1 & H).
  apply modify_dir_inv in H1 as (rd1 & e1 & _ & _ & _ & ->).
  apply bind_inv in H as (w1 & st1 & Hw1 & H).
  apply block_write_inv in Hw1 as (dk1 & ->).
  apply bind_inv in H as (w2 & st2 & Hw2 & H).
  apply block_write_inv in Hw2 as (dk2 & ->).
  apply bind_inv in H as (u2 & st2 & H2 & H).
  apply strcpy_dir_filename_inv in H2 as (rd2 & e2 & n2 & _ & _ & _ & _ & ->).
  apply bind_inv in H as (u3 & st3 & H3 & H).
  apply modify_dir_inv in H3 as (rd3 & e3 & _ & _ & _ & ->).
  apply bind_inv in H as (u4 & st4 & H4 & H).
  apply modify_dir_inv in H4 as (rd4 & e4 & _ & _ & _ & ->).
  apply ret_inv in H as (-> & ->). right. split; [reflexivity|].
  eexists _, _. reflexivity.
Qed.

(** The answer of [locate_file] depends on the name fields only. *)
Lemma locate_file_loop_same_names st st' rd rd' (name : list ascii) (n : nat) :
  myRootDir st = Live rd -> myRootDir st' = Live rd' ->
  filename <$> rd' = filename <$> rd ->
  forall i r,
    locate_file_loop name n i st = Ok (r, st) ->
    locate_file_loop name n i st' = Ok (r, st').
Proof.
  intros Hrd Hrd' Hnames.
  induction n as [|n IH]; intros i r H; cbn [locate_file_loop] in *.
  - apply ret_inv in H as (-> & _). reflexivity.
  - apply bind_inv in H as (e & st1 & He & H).
    apply get_dir_inv in He as (-> & Hi & rd0 & Hrd0 & He).
    rewrite Hrd in Hrd0. injection Hrd0 as <-.
    assert (Hn : (filename <$> rd') !! Z.to_nat i = Some (filename e))
      by (rewrite Hnames, list_lookup_fmap, He; reflexivity).
    rewrite list_lookup_fmap in Hn.
    destruct (rd' !! Z.to_nat i) as [e'|] eqn:He'; [|discriminate].
    injection Hn as Hn.
    rewrite (bind_Ok _ _ _ _ _ (get_dir_Ok _ _ _ _ Hrd' Hi He')), Hn.
    apply bind_inv in H as (c & st1 & Hc & H).
    apply lift_inv in Hc as (Hc & ->). rewrite Hc.
    unfold lift at 1. unfold bind at 1.
    destruct ((c =? 0) && filename_address_nonnull).
    + apply ret_inv in H as (-> & _). reflexivity.
    + now apply IH.
Qed.

(** X20. Open, then delete.  After a successful [fs_open] of a file whose
    open count was below 255, [fs_delete] of the same name returns -1 and
    changes nothing. *)
Theorem fs_open_then_delete_is_refused
    (st : fs_state) (rd : list rootdirectory_t) (name : string)
    (i k : nat) (e : rootdirectory_t) (d dk : file_descriptor_t) :
  myRootDir st = Live rd ->
  locate_file (c_str name) st = Ok (Z.of_nat i, st) ->
  rd !! i = Some e ->
  0 <= num_fd_pointers e < 255 ->
  fd_table st !! i = Some d ->
  (length (name_chars name) < length (file_name d))%nat ->
  (k < Z.to_nat FS_OPEN_MAX_COUNT)%nat ->
  fd_table st !! k = Some dk -> is_used dk = false ->
  (forall j d', (j < k)%nat -> fd_table st !! j = Some d' -> is_used d' = true) ->
  exists st',
    fs_open name st = Ok (Z.of_nat k, st') /\
    fs_delete name st' = Ok (-1, st').
Proof.
  intros Hrd Hloc He Hcount Hd Hlen Hk Hdk Hfree Hused.
  assert (Hil : (i < length rd)%nat) by (eapply lookup_lt_Some; eauto).
  eexists. split.
  { apply (fs_open_run st rd name i k e d dk); assumption. }
  set (st0 := with_fd_table _ st).
  set (rd' := <[i := _]> rd).
  assert (Hloc' : locate_file (c_str name) (with_rootdir (Live rd') st0) =
                  Ok (Z.of_nat i, with_rootdir (Live rd') st0)).
  { unfold locate_file in *.
    apply (locate_file_loop_same_names st _ rd rd'); [exact Hrd|reflexivity| |exact Hloc].
    unfold rd'. rewrite list_fmap_insert. cbn [filename set_num_fd_pointers].
    apply list_insert_id. rewrite list_lookup_fmap, He. reflexivity. }
  unfold fs_delete. rewrite (bind_Ok _ _ _ _ _ Hloc').
  destruct (Z.eqb_spec (Z.of_nat i) (-1)); [lia|].
  erewrite bind_Ok;
    [|eapply get_dir_Ok; [reflexivity|lia|rewrite Nat2Z.id; apply list_lookup_insert_eq, Hil]].
  cbn [num_fd_pointers set_num_fd_pointers].
  assert (Hwrap : to_uint8 (num_fd_pointers e + 1) = num_fd_pointers e + 1).
  { unfold to_uint8. apply Z.mod_small. lia. }
  rewrite Hwrap.
  destruct (Z.gtb_spec (num_fd_pointers e + 1) 0); [reflexivity|lia].
Qed.

(** *** The reset loop of [fs_umount] *)



(** *** [fs_ls] and [fs_info] *)

Lemma read_c_string_terminated (buf : list ascii) :
  terminated buf -> read_c_string buf = Ok (until_nul buf).
Proof.
  unfold terminated. induction buf as [|c buf IH]; intros Hin.
  - now apply elem_of_nil in Hin.
  - cbn [read_c_string until_nul].
    destruct (Ascii.eqb_spec c NUL) as [->|Hc]; [reflexivity|].
    apply elem_of_cons in Hin as [Heq|Hin]; [congruence|].
    now rewrite (IH Hin).
Qed.

Lemma is_file_first_byte (e : rootdirectory_t) (c : ascii) :
  filename e !! 0%nat = Some c -> is_file e = negb (Ascii.eqb c NUL).
Proof.
  unfold is_file. destruct (filename e) as [|c0 l]; [discriminate|].
  now intros [= ->].
Qed.

Lemma fs_ls_loop_lists st rd (n : nat) :
  myRootDir st = Live rd ->
  Forall (fun e => (0 < length (filename e))%nat) rd ->
  Forall (fun e => is_file e = true -> terminated (filename e)) rd ->
  forall k,
    (k + n <= length rd)%nat ->
    fs_ls_loop n (Z.of_nat k) st =
      Ok (ls_line_of <$> List.filter is_file (take n (drop k rd)), st).
Proof.
  intros Hrd Hne Hterm.
  induction n as [|n IH]; intros k Hk; cbn [fs_ls_loop].
  - reflexivity.
  - destruct (lookup_lt_is_Some_2 rd k) as [e He]; [lia|].
    rewrite (drop_S _ _ _ He). cbn [firstn List.filter].
    assert (He' : rd !! Z.to_nat (Z.of_nat k) = Some e) by now rewrite Nat2Z.id.
    rewrite (bind_Ok _ _ _ _ _ (get_dir_Ok _ _ _ _ Hrd (Nat2Z.is_nonneg k) He')).
    pose proof (proj1 (Forall_lookup _ _) Hne _ _ He) as Hlen. cbv beta in Hlen.
    destruct (lookup_lt_is_Some_2 (filename e) 0) as [c Hc]; [lia|].
    rewrite (index_Ok (filename e) 0 c); [|lia|exact Hc].
    unfold lift at 1. unfold bind at 1.
    rewrite (is_file_first_byte e c Hc).
    replace (Z.of_nat k + 1) with (Z.of_nat (S k)) by lia.
    destruct (negb (Ascii.eqb c NUL)) eqn:Hfile.
    + pose proof (proj1 (Forall_lookup _ _) Hterm _ _ He) as Ht. cbv beta in Ht.
      rewrite (is_file_first_byte e c Hc) in Ht.
      rewrite (read_c_string_terminated _ (Ht Hfile)).
      unfold lift at 1. unfold bind at 1.
      rewrite (bind_Ok _ _ _ _ _ (IH (S k) ltac:(lia))). reflexivity.
    + apply IH. lia.
Qed.

Lemma fs_info_loop_counts st rd (n : nat) :
  myRootDir st = Live rd ->
  Forall (fun e => (0 < length (filename e))%nat) rd ->
  forall k count,
    (k + n <= length rd)%nat ->
    fs_info_loop n (Z.of_nat k) count st =
      Ok (count + Z.of_nat n
            - Z.of_nat (length (List.filter is_file (take n (drop k rd)))), st).
Proof.
  intros Hrd Hne.
  induction n as [|n IH]; intros k count Hk; cbn [fs_info_loop].
  - unfold ret. rewrite take_0. cbn [List.filter length]. f_equal. f_equal. lia.
  - destruct (lookup_lt_is_Some_2 rd k) as [e He]; [lia|].
    rewrite (drop_S _ _ _ He). cbn [firstn List.filter].
    assert (He' : rd !! Z.to_nat (Z.of_nat k) = Some e) by now rewrite Nat2Z.id.
    rewrite (bind_Ok _ _ _ _ _ (get_dir_Ok _ _ _ _ Hrd (Nat2Z.is_nonneg k) He')).
    pose proof (proj1 (Forall_lookup _ _) Hne _ _ He) as Hlen. cbv beta in Hlen.
    destruct (lookup_lt_is_Some_2 (filename e) 0) as [c Hc]; [lia|].
    rewrite (index_Ok (filename e) 0 c); [|lia|exact Hc].
    unfold lift at 1. unfold bind at 1.
    rewrite (is_file_first_byte e c Hc).
    replace (Z.of_nat k + 1) with (Z.of_nat (S k)) by lia.
    rewrite IH by lia.
    destruct (Ascii.eqb c NUL); cbn [negb length]; do 2 f_equal; lia.
Qed.

Lemma mounted_names_nonempty st sb fat rd :
  mounted st sb fat rd -> Forall (fun e => (0 < length (filename e))%nat) rd.
Proof.
  intros Hm. eapply Forall_impl; [exact (mounted_names _ _ _ _ Hm)|].
  intros e He. cbv beta in He. rewrite He. unfold FS_FILENAME_LEN. lia.
Qed.

(** X22. [fs_ls] lists the files and nothing else: in a mounted state
    whose file names are terminated inside their fields, it prints one line
    for each slot whose name does not start with NUL, in slot order, with
    the name up to its terminator, the size and the first block; it returns
    0 and changes nothing. *)
Theorem fs_ls_lists_the_files
    (st : fs_state) (sb : superblock_t) (fat : list Z) (rd : list rootdirectory_t) :
  mounted st sb fat rd ->
  Forall (fun e => is_file e = true -> terminated (filename e)) rd ->
  fs_ls st = Ok ((0, ls_line_of <$> List.filter is_file rd), st).
Proof.
  intros Hm Hterm.
  pose proof (mounted_rd_len _ _ _ _ Hm) as Hlen.
  assert (Hk : (0 + Z.to_nat FS_FILE_MAX_COUNT <= length rd)%nat) by lia.
  unfold fs_ls. change 0 with (Z.of_nat 0) at 1.
  rewrite (bind_Ok _ _ _ _ _
             (fs_ls_loop_lists st rd (Z.to_nat FS_FILE_MAX_COUNT) (mounted_rd _ _ _ _ Hm)
                (mounted_names_nonempty _ _ _ _ Hm) Hterm 0%nat Hk)).
  rewrite drop_0, take_ge by lia.
  reflexivity.
Qed.

(** X23. [fs_info] and [fs_ls] agree on the directory: the free entries
    that [fs_info] reports and the lines that [fs_ls] prints add up to the
    128 slots. *)
Theorem fs_info_and_fs_ls_count_all_slots
    (st : fs_state) (sb : superblock_t) (fat : list Z) (rd : list rootdirectory_t) :
  mounted st sb fat rd ->
  Forall (fun e => is_file e = true -> terminated (filename e)) rd ->
  exists info lines,
    fs_info st = Ok ((0, info), st) /\
    fs_ls st = Ok ((0, lines), st) /\
    rdir_free info + Z.of_nat (length lines) = 128.
Proof.
  intros Hm Hterm.
  pose proof (mounted_rd_len _ _ _ _ Hm) as Hlen.
  assert (Hk : (0 + Z.to_nat FS_FILE_MAX_COUNT <= length rd)%nat) by lia.
  assert (Hk' : (0 + 128 <= length rd)%nat) by (unfold FS_FILE_MAX_COUNT in Hlen; lia).
  eexists _, _. split; [|split].
  - unfold fs_info.
    assert (Hgs : get_superblock st = Ok (sb, st))
      by (unfold get_superblock, lift; now rewrite (mounted_sb _ _ _ _ Hm)).
    rewrite (bind_Ok _ _ _ _ _ Hgs). cbv zeta.
    change 0 with (Z.of_nat 0) at 1.
    rewrite (bind_Ok _ _ _ _ _
               (fs_info_loop_counts st rd 128 (mounted_rd _ _ _ _ Hm)
                  (mounted_names_nonempty _ _ _ _ Hm) 0%nat 0 Hk')).
    reflexivity.
  - unfold fs_ls. change 0 with (Z.of_nat 0) at 1.
    rewrite (bind_Ok _ _ _ _ _
               (fs_ls_loop_lists st rd (Z.to_nat FS_FILE_MAX_COUNT)
                  (mounted_rd _ _ _ _ Hm)
                  (mounted_names_nonempty _ _ _ _ Hm) Hterm 0%nat Hk)).
    reflexivity.
  - cbn [rdir_free]. rewrite length_fmap.
    rewrite drop_0. rewrite !take_ge by (unfold FS_FILE_MAX_COUNT in *; lia). lia.
Qed.

(** X24. The FAT size [fs_info] reports is rounded down, and its free
    ratio is not read off the FAT.  For a live superblock with [D] data
    blocks the call returns 0 unchanged; the ratio's first number is [D]
    minus the reported FAT blocks whatever the FAT holds; and when [D]
    exceeds 2048 without being a multiple of it, the reported FAT blocks
    hold fewer than [D] two-byte entries. *)
Theorem fs_info_fat_size_is_rounded_down
    (st : fs_state) (r : Z) (info : fs_info_t) (st' : fs_state) :
  fs_info st = Ok ((r, info), st') ->
  r = 0 /\ st' = st /\
  rdir_blk info = fat_blk_count info + 1 /\
  data_blk info = fat_blk_count info + 2 /\
  fat_free info = data_blk_count info - fat_blk_count info /\
  (2048 < data_blk_count info -> data_blk_count info mod 2048 <> 0 ->
   fat_blk_count info * BLOCK_SIZE < 2 * data_blk_count info).
Proof.
  unfold fs_info. intros H.
  apply bind_inv in H as (sb & st1 & Hsb & H).
  unfold get_superblock in Hsb. apply lift_inv in Hsb as (_ & ->).
  cbv zeta in H.
  apply bind_inv in H as (count & st1 & Hc & H).
  assert (Hst : st1 = st).
  { clear H. revert Hc. generalize 0 at 2. generalize 0 at 1. generalize 128%nat.
    intros n. induction n as [|n IH]; intros i c0 Hc; cbn [fs_info_loop] in Hc.
    - now apply ret_inv in Hc as (_ & ->).
    - apply bind_inv in Hc as (e & st2 & He & Hc).
      apply get_dir_inv in He as (-> & _).
      apply bind_inv in Hc as (c & st2 & Hcc & Hc).
      apply lift_inv in Hcc as (_ & ->).
      now apply IH in Hc. }
  subst st1. apply ret_inv in H as (H & ->). injection H as -> ->.
  cbn [rdir_blk data_blk fat_free fat_blk_count data_blk_count].
  repeat split.
  intros Hbig Hrem. unfold FAT_blocks_of, BLOCK_SIZE.
  set (D := numDataBlocks sb) in *.
  assert (Hq : Z.quot (D * 2) 4096 = D / 2048).
  { rewrite Z.quot_div_nonneg by lia.
    replace 4096 with (2048 * 2) by lia.
    rewrite Z.div_mul_cancel_r by lia. reflexivity. }
  rewrite Hq.
  assert (1 <= D / 2048) by (apply Z.div_le_lower_bound; lia).
  destruct (Z.eqb_spec (D / 2048) 0); [lia|].
  pose proof (Z.div_mod D 2048 ltac:(lia)).
  pose proof (Z.mod_pos_bound D 2048 ltac:(lia)). lia.
Qed.

(** *** What [fs_delete] does to the disk *)

Lemma fs_delete_loop_low (frst : Z) (n : nat) :
  0 <= frst < BLOCK_SIZE ->
  forall buf1 buf2,
    length buf1 = Z.to_nat BLOCK_SIZE ->
    fs_delete_loop (S n) frst buf1 buf2 = Ok (<[Z.to_nat frst := NUL]> buf1, buf2).
Proof.
  intros Hf. induction n as [|n IH]; intros buf1 buf2 H1.
  - cbn [fs_delete_loop].
    destruct (Z.ltb_spec frst BLOCK_SIZE); [|lia].
    unfold store. destruct (Z.leb_spec 0 frst); [|lia].
    destruct (Z.ltb_spec frst (Z.of_nat (length buf1))); [|lia].
    reflexivity.
  - change (fs_delete_loop (S (S n)) frst buf1 buf2) with
      (obind
         (if frst <? BLOCK_SIZE
          then obind (store buf1 frst NUL) (fun b => Ok (b, buf2))
          else obind (store buf2 (frst - BLOCK_SIZE) NUL) (fun b => Ok (buf1, b)))
         (fun bufs => fs_delete_loop (S n) frst (fst bufs) (snd bufs))).
    destruct (Z.ltb_spec frst BLOCK_SIZE); [|lia].
    unfold store. destruct (Z.leb_spec 0 frst); [|lia].
    destruct (Z.ltb_spec frst (Z.of_nat (length buf1))); [|lia].
    cbn [andb obind fst snd].
    rewrite IH by now rewrite length_insert.
    now rewrite list_insert_insert_eq.
Qed.

Lemma block_read_at st blocks (blk : Z) (b buf : list ascii) :
  disk st = Some blocks ->
  0 <= blk -> blocks !! Z.to_nat blk = Some b ->
  length b = Z.to_nat BLOCK_SIZE -> length buf = Z.to_nat BLOCK_SIZE ->
  block_read blk buf st = Ok ((0, b), st).
Proof.
  intros Hd Hblk Hb Hlb Hlbuf. unfold block_read. rewrite Hd.
  pose proof (lookup_lt_Some _ _ _ Hb) as Hlt.
  destruct (Z.leb_spec 0 blk); [|lia].
  destruct (Z.ltb_spec blk (Z.of_nat (length blocks))); [|unfold block in *; lia].
  cbn [andb]. unfold block in *. rewrite Hb.
  destruct (Z.leb_spec BLOCK_SIZE (Z.of_nat (length buf))); [|unfold BLOCK_SIZE in *; lia].
  rewrite <- Hlb at 1. rewrite firstn_all.
  rewrite drop_ge by lia. now rewrite app_nil_r.
Qed.

Lemma block_write_at st blocks (blk : Z) (b buf : list ascii) :
  disk st = Some blocks ->
  0 <= blk -> blocks !! Z.to_nat blk = Some b ->
  length buf = Z.to_nat BLOCK_SIZE ->
  block_write blk buf st =
    Ok (0, with_disk (Some (<[Z.to_nat blk := buf]> blocks)) st).
Proof.
  intros Hd Hblk Hb Hlbuf. unfold block_write. rewrite Hd.
  pose proof (lookup_lt_Some _ _ _ Hb) as Hlt.
  destruct (Z.leb_spec 0 blk); [|lia].
  destruct (Z.ltb_spec blk (Z.of_nat (length blocks))); [|unfold block in *; lia].
  cbn [andb].
  destruct (Z.leb_spec BLOCK_SIZE (Z.of_nat (length buf))); [|unfold BLOCK_SIZE in *; lia].
  rewrite <- Hlbuf. now rewrite firstn_all.
Qed.

Lemma block_write_elsewhere st blocks (blk : Z) (k : nat) (b buf : list ascii) :
  disk st = Some blocks ->
  blocks !! k = Some b -> Z.to_nat blk <> k ->
  length buf = Z.to_nat BLOCK_SIZE ->
  exists r blocks',
    block_write blk buf st = Ok (r, with_disk (Some blocks') st) /\
    blocks' !! k = Some b.
Proof.
  intros Hd Hb Hne Hlbuf. unfold block_write. rewrite Hd.
  destruct ((0 <=? blk) && (blk <? Z.of_nat (length blocks))).
  - destruct (Z.leb_spec BLOCK_SIZE (Z.of_nat (length buf)));
      [|unfold BLOCK_SIZE in *; lia].
    eexists _, _. split; [reflexivity|].
    rewrite list_lookup_insert_ne by exact Hne. exact Hb.
  - exists (-1), blocks. split; [|exact Hb].
    unfold with_disk. rewrite <- Hd. now destruct st.
Qed.

(** X25. [fs_delete] writes into the data region.  Deleting a file of at
    least one block whose first-block index [b] is below [BLOCK_SIZE]
    returns 0 and sets byte [b] of the first data block of the disk to
    NUL, leaving the other bytes of that block as they were, whichever file
    the block belongs to. *)
Theorem fs_delete_overwrites_the_first_data_block
    (st : fs_state) (sb : superblock_t) (fat : list Z)
    (rd : list rootdirectory_t) (name : string) (i : Z) (e : rootdirectory_t)
    (blocks : list (list ascii)) (b : list ascii) :
  mounted st sb fat rd ->
  locate_file (c_str name) st = Ok (i, st) -> i <> -1 ->
  rd !! Z.to_nat i = Some e ->
  num_fd_pointers e = 0 ->
  BLOCK_SIZE <= fileSize e ->
  0 <= dataBlockInd e < BLOCK_SIZE ->
  disk st = Some blocks ->
  0 <= dataInd sb < 2 ^ 15 ->
  blocks !! Z.to_nat (dataInd sb) = Some b ->
  exists st' blocks',
    fs_delete name st = Ok (0, st') /\
    disk st' = Some blocks' /\
    blocks' !! Z.to_nat (dataInd sb) =
      Some (<[Z.to_nat (dataBlockInd e) := NUL]> b).
Proof.
  intros Hm Hloc Hi He Hopen Hsize Hfirst Hdisk Hdata Hb.
  pose proof (mounted_rd _ _ _ _ Hm) as Hrd.
  pose proof (mounted_sb _ _ _ _ Hm) as Hsb.
  pose proof (mounted_blocks _ _ _ _ Hm) as Hblocks.
  pose proof (locate_file_inv _ _ _ _ Hloc) as (_ & [Hneg|Hi0]); [contradiction|].
  assert (Hil : (Z.to_nat i < length rd)%nat) by (eapply lookup_lt_Some; eauto).
  pose proof (proj1 (Forall_lookup _ _) (mounted_names _ _ _ _ Hm) _ _ He) as Hname.
  cbv beta in Hname. unfold FS_FILENAME_LEN in Hname.
  pose proof (proj1 (Forall_lookup _ _) (Hblocks _ Hdisk) _ _ Hb) as Hlb.
  cbv beta in Hlb.
  assert (Hzero : length (replicate (Z.to_nat BLOCK_SIZE) NUL) = Z.to_nat BLOCK_SIZE)
    by apply length_replicate.
  assert (Hc0 : to_size_t (dataInd sb) = dataInd sb)
    by (unfold to_size_t; apply Z.mod_small; lia).
  assert (Hc1 : to_size_t (dataInd sb + 1) = dataInd sb + 1)
    by (unfold to_size_t; apply Z.mod_small; lia).
  destruct (block_read_total st (dataInd sb + 1) _ Hblocks Hzero)
    as (r2 & b2 & Hr2 & Hb2).
  destruct (Z.to_nat (Z.quot (fileSize e) BLOCK_SIZE)) as [|n] eqn:Hn.
  { assert (1 <= Z.quot (fileSize e) BLOCK_SIZE); [|lia].
    rewrite Z.quot_div_nonneg by (unfold BLOCK_SIZE in *; lia).
    apply Z.div_le_lower_bound; unfold BLOCK_SIZE in *; lia. }
  set (b1 := <[Z.to_nat (dataBlockInd e) := NUL]> b).
  assert (Hb1 : length b1 = Z.to_nat BLOCK_SIZE) by (unfold b1; now rewrite length_insert).
  set (rd1 := <[Z.to_nat i := set_dataBlockInd (-1) e]> rd).
  set (st1 := with_rootdir (Live rd1) st).
  pose proof (block_write_at st1 blocks (dataInd sb) b b1 Hdisk (proj1 Hdata) Hb Hb1)
    as Hw1.
  set (blocks1 := <[Z.to_nat (dataInd sb) := b1]> blocks) in Hw1.
  set (st2 := with_disk (Some blocks1) st1) in Hw1.
  assert (Hlook : blocks1 !! Z.to_nat (dataInd sb) = Some b1).
  { apply list_lookup_insert_eq. eapply lookup_lt_Some; eauto. }
  destruct (block_write_elsewhere st2 blocks1 (dataInd sb + 1) (Z.to_nat (dataInd sb))
              b1 b2 eq_refl Hlook ltac:(lia) Hb2) as (w2 & blocks2 & Hw2 & Hlook2).
  set (st3 := with_disk (Some blocks2) st2) in Hw2.
  assert (Hlook1 : rd1 !! Z.to_nat i = Some (set_dataBlockInd (-1) e))
    by apply list_lookup_insert_eq, Hil.
  assert (Hil1 : (Z.to_nat i < length rd1)%nat) by (unfold rd1; now rewrite length_insert).
  eexists _, blocks2. split; [|split; [|exact Hlook2]].
  { unfold fs_delete. rewrite (bind_Ok _ _ _ _ _ Hloc).
    destruct (Z.eqb_spec i (-1)) as [|_]; [contradiction|].
    rewrite (bind_Ok _ _ _ _ _ (get_dir_Ok _ _ _ _ Hrd (proj1 Hi0) He)).
    rewrite Hopen. change (0 >? 0) with false. cbv iota zeta.
    assert (Hgs : get_superblock st = Ok (sb, st))
      by (unfold get_superblock, lift; now rewrite Hsb).
    rewrite (bind_Ok _ _ _ _ _ Hgs). rewrite Hc0, Hc1.
    rewrite (bind_Ok _ _ _ _ _
               (block_read_at st blocks (dataInd sb) b _ Hdisk (proj1 Hdata) Hb Hlb Hzero)).
    rewrite (bind_Ok _ _ _ _ _ Hr2).
    cbn [fst snd]. rewrite Hn.
    rewrite (fs_delete_loop_low _ n Hfirst b b2 Hlb).
    unfold lift at 1. unfold bind at 1.
    rewrite (bind_Ok _ _ _ _ _ (modify_dir_Ok _ _ _ _ _ Hrd (proj1 Hi0) He)).
    cbn [fst snd]. fold rd1. fold st1. fold b1.
    rewrite (bind_Ok _ _ _ _ _ Hw1), (bind_Ok _ _ _ _ _ Hw2).
    erewrite (bind_Ok (strcpy_dir_filename i _) _ st3);
      [|eapply strcpy_dir_filename_Ok;
        [reflexivity|lia|exact Hlook1|apply strcpy_empty; cbn [filename set_dataBlockInd]; lia]].
    erewrite bind_Ok;
      [|eapply modify_dir_Ok; [reflexivity|lia|apply list_lookup_insert_eq, Hil1]].
    erewrite bind_Ok;
      [|eapply modify_dir_Ok;
        [reflexivity|lia|apply list_lookup_insert_eq; now rewrite length_insert]].
    reflexivity. }
  reflexivity.
Qed.

(** *** [fs_read] *)

(** X26. [fs_read] never moves a cursor and never reports a byte count:
    whenever it is defined it hands the state back unchanged and its
    result is 0 or -1. *)
Theorem fs_read_never_moves_the_cursor
    (st : fs_state) (fd : Z) (buf : list ascii) (count r : Z)
    (buf' : list ascii) (st' : fs_state) :
  fs_read fd buf count st = Ok ((r, buf'), st') ->
  st' = st /\ (r = 0 \/ r = -1).
Proof.
  unfold fs_read. intros H.
  apply bind_inv in H as (d & st1 & Hd & H).
  apply get_fd_inv in Hd as (-> & _ & _).
  destruct (Bool.eqb (is_used d) false || (count <=? 0)).
  - injection H as <- <- <-. split; [reflexivity|now right].
  - apply bind_inv in H as (i & st1 & Hi & H).
    apply locate_file_inv in Hi as (-> & _).
    apply bind_inv in H as (e & st1 & He & H).
    apply get_dir_inv in He as (-> & _ & _).
    destruct (fs_read_skip _ _ _); [|discriminate].
    apply bind_inv in H as ([r1 b1] & st1 & Hr & H).
    injection H as <- <- <-.
    split; [|now left].
    unfold block_read in Hr.
    destruct (disk st); [|now injection Hr].
    destruct (_ && _); [|now injection Hr].
    destruct (_ !! _); [|discriminate].
    destruct (_ <=? _); [now injection Hr|discriminate].
Qed.

(** X4. [locate_avail_fd] answers the lowest free descriptor: a free slot
    [k] below which every slot is in use. *)
Theorem locate_avail_fd_answers_lowest_free
    (st : fs_state) (k : nat) (d : file_descriptor_t) :
  (k < Z.to_nat FS_OPEN_MAX_COUNT)%nat ->
  fd_table st !! k = Some d -> is_used d = false ->
  (forall j d', (j < k)%nat -> fd_table st !! j = Some d' -> is_used d' = true) ->
  locate_avail_fd st = Ok (Z.of_nat k, st).
Proof.
  intros Hlt Hk Hfree Hused. unfold locate_avail_fd. change 0 with (Z.of_nat 0).
  apply (locate_avail_fd_loop_lowest st k d Hk Hfree Hused). lia.
Qed.

(** *** The properties at concrete states *)

Lemma st_all_open_mounted :
  mounted st_all_open sb_small [65535; 0; 0; 0] (rootdir_of [file_entry "a" 0 (-1) 32]).
Proof.
  constructor; try reflexivity.
  - simpl. lia.
  - apply (bool_decide_unpack _). vm_compute. reflexivity.
  - intros blocks [= <-]. apply (bool_decide_unpack _). vm_compute. reflexivity.
Qed.

Lemma st_full_mounted :
  mounted st_full sb_small [65535; 0; 0; 0] (replicate 128 (file_entry "f" 0 (-1) 0)).
Proof.
  constructor; try reflexivity.
  - simpl. lia.
  - apply (bool_decide_unpack _). vm_compute. reflexivity.
  - intros blocks [= <-]. apply (bool_decide_unpack _). vm_compute. reflexivity.
Qed.

Lemma st_hello_mounted :
  mounted st_hello sb_small [65535; 65535; 0; 0] (rootdir_of [file_entry "x" 5 1 1]).
Proof.
  constructor; try reflexivity.
  - simpl. lia.
  - apply (bool_decide_unpack _). vm_compute. reflexivity.
  - intros blocks [= <-]. apply (bool_decide_unpack _). vm_compute. reflexivity.
Qed.

Lemma two_files_differ_before_1 :
  forall j, 0 <= j < 1 -> name_differs st_two_files j (c_str "a").
Proof.
  intros j Hj. assert (j = 0) as -> by lia.
  exists (file_entry "b" 0 (-1) 0), 1.
  split; [reflexivity|]. split; [reflexivity|lia].
Qed.

Lemma locate_file_first_match_witness :
  locate_file (c_str "a") st_two_files = Ok (1, st_two_files).
Proof.
  apply (locate_file_first_match st_two_files (c_str "a") 1).
  - unfold FS_FILE_MAX_COUNT. lia.
  - exists (file_entry "a" 0 (-1) 0). split; reflexivity.
  - exact two_files_differ_before_1.
Defined.

Lemma locate_file_sound_witness :
  st_two_files = st_two_files /\
  ((1 = -1 /\
    forall j, 0 <= j < FS_FILE_MAX_COUNT -> name_differs st_two_files j (c_str "a")) \/
   (0 <= 1 < FS_FILE_MAX_COUNT /\ name_matches st_two_files 1 (c_str "a") /\
    forall j, 0 <= j < 1 -> name_differs st_two_files j (c_str "a"))).
Proof.
  apply (locate_file_sound st_two_files (c_str "a") 1 st_two_files).
  vm_compute. reflexivity.
Defined.

Lemma two_files_lowest_empty :
  lowest_empty (rootdir_of [file_entry "b" 0 (-1) 0; file_entry "a" 0 (-1) 0]) 2 empty_entry.
Proof.
  split; [reflexivity|]. split; [reflexivity|].
  intros [|[|j]] e' Hj; [| |lia]; vm_compute; intros [= <-]; discriminate.
Qed.

Lemma locate_file_empty_name_witness :
  locate_file (c_str "") st_two_files = Ok (2, st_two_files).
Proof.
  apply (locate_file_empty_name_finds_empty_slot st_two_files sb_small [65535; 0; 0; 0]
           (rootdir_of [file_entry "b" 0 (-1) 0; file_entry "a" 0 (-1) 0]) 2 empty_entry).
  - exact st_two_files_mounted.
  - exact two_files_lowest_empty.
Defined.

Lemma hello_fd_1_is_lowest_free :
  forall j d', (j < 1)%nat -> fd_table st_hello !! j = Some d' -> is_used d' = true.
Proof.
  intros [|j] d' Hj; [|lia]. vm_compute. now intros [= <-].
Qed.

Lemma locate_avail_fd_witness :
  locate_avail_fd st_hello = Ok (1, st_hello).
Proof.
  apply (locate_avail_fd_answers_lowest_free st_hello 1 free_fd).
  - vm_compute. lia.
  - reflexivity.
  - reflexivity.
  - exact hello_fd_1_is_lowest_free.
Defined.

Lemma locate_avail_fd_exhausted_witness :
  locate_avail_fd st_all_open = Ok (-1, st_all_open).
Proof.
  apply (locate_avail_fd_exhausted st_all_open).
  - reflexivity.
  - apply (bool_decide_unpack _). vm_compute. reflexivity.
Defined.

Lemma two_files_fd_0_is_lowest_free :
  forall j d', (j < 0)%nat -> fd_table st_two_files !! j = Some d' -> is_used d' = true.
Proof. intros j d' Hj. lia. Qed.


Lemma fs_open_root_index_beyond_table_witness :
  fs_open "z" st_far = Undefined.
Proof.
  apply (fs_open_root_index_beyond_table st_far "z" 32 0).
  - reflexivity.
  - vm_compute. reflexivity.
  - unfold FS_OPEN_MAX_COUNT. lia.
  - vm_compute. reflexivity.
  - lia.
Defined.

Lemma fs_open_table_full_witness :
  fs_open "a" st_all_open = Ok (-1, st_all_open).
Proof.
  apply (fs_open_table_full st_all_open "a" 0).
  - reflexivity.
  - apply (bool_decide_unpack _). vm_compute. reflexivity.
  - vm_compute. reflexivity.
Defined.

Lemma two_files_have_no_zz :
  forall j, 0 <= j < FS_FILE_MAX_COUNT -> name_differs st_two_files j (c_str "zz").
Proof.
  assert (H : locate_file_loop (c_str "zz") (Z.to_nat FS_FILE_MAX_COUNT) 0 st_two_files =
              Ok (-1, st_two_files)) by (vm_compute; reflexivity).
  apply locate_file_loop_sound in H as [(_ & Hall)|(Hr & _)]; [|lia].
  intros j Hj. apply Hall. unfold FS_FILE_MAX_COUNT in *. lia.
Qed.

Lemma missing_file_witness :
  fs_open "zz" st_two_files = Ok (-1, st_two_files) /\
  fs_delete "zz" st_two_files = Ok (-1, st_two_files).
Proof.
  apply (missing_file_is_refused st_two_files "zz"). exact two_files_have_no_zz.
Defined.


Lemma fs_close_twice_witness :
  exists st',
    fs_close 0 st_busy = Ok (0, st') /\
    fs_close 0 st' = Ok (-1, st').
Proof.
  apply (fs_close_twice st_busy (rootdir_of [file_entry "a" 0 (-1) 1]) 0
           (open_fd "a" 0 0) 0 (file_entry "a" 0 (-1) 1)).
  - unfold FS_OPEN_MAX_COUNT. lia.
  - reflexivity.
  - reflexivity.
  - vm_compute. reflexivity.
  - lia.
  - reflexivity.
  - reflexivity.
Defined.

Lemma fs_stat_sound_witness :
  st_hello = st_hello /\
  (5 = -1 \/
   exists d i e,
     0 <= 0 < FS_OPEN_MAX_COUNT /\
     fd_table st_hello !! Z.to_nat 0 = Some d /\ is_used d = true /\
     locate_file (file_name d) st_hello = Ok (i, st_hello) /\ i <> -1 /\
     get_dir i st_hello = Ok (e, st_hello) /\ 5 = fileSize e).
Proof.
  apply (fs_stat_sound st_hello 0 5 st_hello). vm_compute. reflexivity.
Defined.

Lemma fs_lseek_only_moves_the_cursor_witness :
  (0 = -1 /\
   with_fd_table (<[0%nat := set_offset 3 (open_fd "x" 0 0)]> (fd_table st_hello)) st_hello =
     st_hello) \/
  (0 = 0 /\
   exists d, fd_table st_hello !! Z.to_nat 0 = Some d /\ is_used d = true /\
     with_fd_table (<[0%nat := set_offset 3 (open_fd "x" 0 0)]> (fd_table st_hello)) st_hello =
       with_fd_table (<[Z.to_nat 0 := set_offset 3 d]> (fd_table st_hello)) st_hello).
Proof.
  apply (fs_lseek_only_moves_the_cursor st_hello 0 3 0). vm_compute. reflexivity.
Defined.

Lemma error_check_long_name_witness :
  error_check (c_str "0123456789abcdefg") st_unmounted = Ok (-1, st_unmounted).
Proof.
  apply (error_check_long_name st_unmounted "0123456789abcdefg"). vm_compute. lia.
Defined.

Lemma error_check_empty_name_witness :
  error_check (c_str "") st_two_files = Ok (-1, st_two_files).
Proof.
  apply (error_check_empty_name st_two_files sb_small [65535; 0; 0; 0]
           (rootdir_of [file_entry "b" 0 (-1) 0; file_entry "a" 0 (-1) 0])).
  exact st_two_files_mounted.
Defined.

Lemma fs_create_directory_full_witness :
  fs_create "g" st_full = Ok (-1, st_full).
Proof.
  apply (fs_create_directory_full st_full sb_small [65535; 0; 0; 0]
           (replicate 128 (file_entry "f" 0 (-1) 0)) "g").
  - exact st_full_mounted.
  - apply (bool_decide_unpack _). vm_compute. reflexivity.
Defined.

Lemma fs_create_then_locate_witness :
  exists st',
    fs_create "c" st_two_files = Ok (0, st') /\
    locate_file (c_str "c") st' = Ok (2, st').
Proof.
  apply (fs_create_then_locate st_two_files sb_small [65535; 0; 0; 0]
           (rootdir_of [file_entry "b" 0 (-1) 0; file_entry "a" 0 (-1) 0])
           "c" 2 empty_entry).
  - exact st_two_files_mounted.
  - vm_compute. lia.
  - exact two_files_lowest_empty.
  - vm_compute. reflexivity.
Defined.

Lemma fs_create_only_writes_the_directory_witness :
  exists r st',
    fs_create "c" st_two_files = Ok (r, st') /\
    ((r = -1 /\ st' = st_two_files) \/
     (r = 0 /\ exists rd', st' = with_rootdir (Live rd') st_two_files)).
Proof.
  eexists _, _. split; [vm_compute; reflexivity|].
  apply (fs_create_only_writes_the_directory st_two_files "c").
  vm_compute. reflexivity.
Defined.

Lemma fs_delete_keeps_the_fat_witness :
  exists r st',
    fs_delete "a" st_chain = Ok (r, st') /\
    ((r = -1 /\ st' = st_chain) \/
     (r = 0 /\ exists rd' dk,
        st' = mk_state (mySuperblock st_chain) (Live rd') (myFAT st_chain)
                (fd_table st_chain) dk)).
Proof.
  eexists _, _. split; [vm_compute; reflexivity|].
  apply (fs_delete_keeps_the_fat st_chain "a").
  vm_compute. reflexivity.
Defined.

Lemma fs_open_then_delete_witness :
  exists st',
    fs_open "a" st_two_files = Ok (0, st') /\
    fs_delete "a" st' = Ok (-1, st').
Proof.
  apply (fs_open_then_delete_is_refused st_two_files
           (rootdir_of [file_entry "b" 0 (-1) 0; file_entry "a" 0 (-1) 0])
           "a" 1 0 (file_entry "a" 0 (-1) 0) free_fd free_fd).
  - reflexivity.
  - vm_compute. reflexivity.
  - reflexivity.
  - simpl. lia.
  - reflexivity.
  - vm_compute. lia.
  - vm_compute. lia.
  - reflexivity.
  - reflexivity.
  - exact two_files_fd_0_is_lowest_free.
Defined.


Lemma two_files_names_terminated :
  Forall (fun e => is_file e = true -> terminated (filename e))
    (rootdir_of [file_entry "b" 0 (-1) 0; file_entry "a" 0 (-1) 0]).
Proof. unfold terminated. apply (bool_decide_unpack _). vm_compute. reflexivity. Qed.

Lemma fs_ls_witness :
  fs_ls st_two_files =
    Ok ((0, ls_line_of <$>
              List.filter is_file
                (rootdir_of [file_entry "b" 0 (-1) 0; file_entry "a" 0 (-1) 0])),
        st_two_files).
Proof.
  apply (fs_ls_lists_the_files st_two_files sb_small [65535; 0; 0; 0]
           (rootdir_of [file_entry "b" 0 (-1) 0; file_entry "a" 0 (-1) 0])).
  - exact st_two_files_mounted.
  - exact two_files_names_terminated.
Defined.

Lemma fs_info_and_fs_ls_witness :
  exists info lines,
    fs_info st_two_files = Ok ((0, info), st_two_files) /\
    fs_ls st_two_files = Ok ((0, lines), st_two_files) /\
    rdir_free info + Z.of_nat (length lines) = 128.
Proof.
  apply (fs_info_and_fs_ls_count_all_slots st_two_files sb_small [65535; 0; 0; 0]
           (rootdir_of [file_entry "b" 0 (-1) 0; file_entry "a" 0 (-1) 0])).
  - exact st_two_files_mounted.
  - exact two_files_names_terminated.
Defined.

Lemma fs_info_witness :
  0 = 0 /\ st_3000 = st_3000 /\
  rdir_blk (mk_info 3004 1 2 3 3000 2999 128) =
    fat_blk_count (mk_info 3004 1 2 3 3000 2999 128) + 1 /\
  data_blk (mk_info 3004 1 2 3 3000 2999 128) =
    fat_blk_count (mk_info 3004 1 2 3 3000 2999 128) + 2 /\
  fat_free (mk_info 3004 1 2 3 3000 2999 128) =
    data_blk_count (mk_info 3004 1 2 3 3000 2999 128)
    - fat_blk_count (mk_info 3004 1 2 3 3000 2999 128) /\
  (2048 < data_blk_count (mk_info 3004 1 2 3 3000 2999 128) ->
   data_blk_count (mk_info 3004 1 2 3 3000 2999 128) mod 2048 <> 0 ->
   fat_blk_count (mk_info 3004 1 2 3 3000 2999 128) * BLOCK_SIZE <
     2 * data_blk_count (mk_info 3004 1 2 3 3000 2999 128)).
Proof.
  apply (fs_info_fat_size_is_rounded_down st_3000 0 (mk_info 3004 1 2 3 3000 2999 128)
           st_3000).
  reflexivity.
Defined.

Lemma fs_delete_overwrites_witness :
  exists st' blocks',
    fs_delete "a" st_chain = Ok (0, st') /\
    disk st' = Some blocks' /\
    blocks' !! Z.to_nat (dataInd sb_small) =
      Some (<[Z.to_nat (dataBlockInd (file_entry "a" 4096 1 0)) := NUL]> zero_block).
Proof.
  apply (fs_delete_overwrites_the_first_data_block st_chain sb_small [65535; 65535; 0; 0]
           (rootdir_of [file_entry "a" 4096 1 0]) "a" 0 (file_entry "a" 4096 1 0)
           blank_disk zero_block).
  - exact st_chain_mounted.
  - vm_compute. reflexivity.
  - lia.
  - reflexivity.
  - reflexivity.
  - vm_compute. discriminate.
  - vm_compute. split; [discriminate|reflexivity].
  - reflexivity.
  - vm_compute. split; [discriminate|reflexivity].
  - reflexivity.
Defined.

Lemma fs_read_never_moves_the_cursor_witness :
  st_hello = st_hello /\ (0 = 0 \/ 0 = -1).
Proof.
  apply (fs_read_never_moves_the_cursor st_hello 0 zero_block 5 0
           (block_of [byte_FF; byte_FF; byte_FF; byte_FF]) st_hello).
  vm_compute. reflexivity.
Defined.
